(** * Contrail persistence calculator: a shallow embedding of
    [contrail_persistence.py] and the properties of its time handling,
    humidity physics, table validation and level selection.

    Conventions of the embedding.
    - [float] values (numpy float64) are idealised as real numbers [R]:
      no rounding, no NaN, no infinities.  Comparisons on them are the
      classical decisions of the real-number library.
    - [datetime] objects are records of integers; [timedelta] is a number
      of microseconds.
    - Python [str] is [string]; inputs are taken to be ASCII text.
    - A Python call that can raise returns [option] ([None] is the raised
      exception named in the definition's comment). *)

From Stdlib Require Import Reals Lra Lia ZArith Bool List String Ascii.
Import ListNotations.

(* ================================================================== *)
(** * Humidity engine (source lines 20-32) *)
(* ================================================================== *)

Section Humidity.
Local Open Scope R_scope.

(** [saturation_vapor_pressure_ice(T_c)] *)
Definition saturation_vapor_pressure_ice (T_c : R) : R :=
  6.112 * exp ((22.46 * T_c) / (T_c + 272.62)).

(** [saturation_vapor_pressure_water(Td_c)] *)
Definition saturation_vapor_pressure_water (Td_c : R) : R :=
  6.112 * exp ((17.67 * Td_c) / (Td_c + 243.5)).

(** [calculate_rhi(T_c, Td_c)] *)
Definition calculate_rhi (T_c Td_c : R) : R :=
  let e := saturation_vapor_pressure_water Td_c in
  let e_si := saturation_vapor_pressure_ice T_c in
  (e / e_si) * 100.

(** Boolean views of the comparisons the program makes on floats. *)
Definition Rleb (x y : R) : bool := if Rle_dec x y then true else false.
Definition Rltb (x y : R) : bool := if Rlt_dec x y then true else false.
Definition Reqb (x y : R) : bool := if Req_dec_T x y then true else false.

(** [contrail_persistence(rhi)]: the test is [rhi >= 100]. *)
Definition contrail_persistence (rhi : R) : string :=
  if Rleb 100 rhi then "Persistent contrails possible"%string
  else "Persistent contrails not possible"%string.

End Humidity.

(* ================================================================== *)
(** * Calendar: the parts of [datetime] the program relies on *)
(* ================================================================== *)

Section Calendar.
Local Open Scope Z_scope.

(** [datetime.date]: year, month, day. *)
Record date := mk_date { d_year : Z; d_month : Z; d_day : Z }.

(** [datetime.datetime] (naive): the program never attaches a time zone. *)
Record datetime := mk_datetime {
  year : Z; month : Z; day : Z;
  hour : Z; minute : Z; second : Z; microsecond : Z }.

Definition MINYEAR : Z := 1.
Definition MAXYEAR : Z := 9999.

Definition is_leap (y : Z) : bool :=
  (y mod 4 =? 0) && (negb (y mod 100 =? 0) || (y mod 400 =? 0)).

Definition days_in_month (y m : Z) : Z :=
  match m with
  | 1 => 31 | 2 => if is_leap y then 29 else 28 | 3 => 31 | 4 => 30
  | 5 => 31 | 6 => 30 | 7 => 31 | 8 => 31 | 9 => 30 | 10 => 31
  | 11 => 30 | 12 => 31 | _ => 0
  end.

(** Number of days before January 1st of year [y] (proleptic Gregorian). *)
Definition days_before_year (y : Z) : Z :=
  let p := y - 1 in p * 365 + p / 4 - p / 100 + p / 400.

(** Number of days in year [y] before the first day of month [m]. *)
Definition days_before_month (y m : Z) : Z :=
  match m with
  | 1 => 0 | 2 => 31 | 3 => 59 | 4 => 90 | 5 => 120 | 6 => 151
  | 7 => 181 | 8 => 212 | 9 => 243 | 10 => 273 | 11 => 304 | 12 => 334
  | _ => 0
  end + (if (2 <? m) && is_leap y then 1 else 0).

(** [date.toordinal()]: 0001-01-01 is day 1. *)
Definition toordinal (d : date) : Z :=
  days_before_year (d_year d) + days_before_month (d_year d) (d_month d)
  + d_day d.

(** The range checks of the [date] and [datetime] constructors. *)
Definition valid_date (d : date) : bool :=
  (MINYEAR <=? d_year d) && (d_year d <=? MAXYEAR)
  && (1 <=? d_month d) && (d_month d <=? 12)
  && (1 <=? d_day d) && (d_day d <=? days_in_month (d_year d) (d_month d)).

(** [datetime.date()] *)
Definition date_of (dt : datetime) : date :=
  mk_date (year dt) (month dt) (day dt).

Definition valid_datetime (dt : datetime) : bool :=
  valid_date (date_of dt)
  && (0 <=? hour dt) && (hour dt <=? 23)
  && (0 <=? minute dt) && (minute dt <=? 59)
  && (0 <=? second dt) && (second dt <=? 59)
  && (0 <=? microsecond dt) && (microsecond dt <=? 999999).

(** [datetime(year, month, day, hour, minute)]: [None] is the
    [ValueError] of an out-of-range field. *)
Definition datetime_new (y m d h mi : Z) : option datetime :=
  let dt := mk_datetime y m d h mi 0 0 in
  if valid_datetime dt then Some dt else None.

(** [d + timedelta(days=1)]: the following calendar day; [None] is the
    [OverflowError] raised past [date.max] = 9999-12-31. *)
Definition date_add_one_day (d : date) : option date :=
  if d_day d <? days_in_month (d_year d) (d_month d)
  then Some (mk_date (d_year d) (d_month d) (d_day d + 1))
  else if d_month d <? 12
  then Some (mk_date (d_year d) (d_month d + 1) 1)
  else if d_year d <? MAXYEAR
  then Some (mk_date (d_year d + 1) 1 1)
  else None.

(** A [timedelta], as its total number of microseconds. *)
Definition timedelta := Z.

Definition timedelta_hours (h : Z) : timedelta := h * 3600 * 1000000.

(** Microseconds elapsed since the start of day 0 of the calendar. *)
Definition to_microseconds (dt : datetime) : Z :=
  (((toordinal (date_of dt) * 24 + hour dt) * 60 + minute dt) * 60
   + second dt) * 1000000 + microsecond dt.

(** [a - b] on naive datetimes. *)
Definition datetime_sub (a b : datetime) : timedelta :=
  to_microseconds a - to_microseconds b.

End Calendar.

(* ================================================================== *)
(** * [datetime.strptime], for the directives of the program's formats *)
(* ================================================================== *)

Section Strptime.
Local Open Scope char_scope.
Local Open Scope nat_scope.

(** One position of a directive's regular expression. *)
Inductive cclass :=
| Digit                       (* \d *)
| Range (lo hi : ascii)       (* [lo-hi] *)
| Chr (c : ascii).            (* a literal character *)

(** One element of a compiled format. *)
Inductive item :=
| Group (name : ascii) (alts : list (list cclass))   (* (?P<name>a1|a2|...) *)
| Lit (c : ascii)
| Spaces.                                            (* \s+ *)

Definition is_digit (c : ascii) : bool :=
  let n := nat_of_ascii c in (48 <=? n) && (n <=? 57).

(** What [\s] matches among ASCII characters. *)
Definition is_space (c : ascii) : bool :=
  let n := nat_of_ascii c in
  ((9 <=? n) && (n <=? 13)) || ((28 <=? n) && (n <=? 32)).

Definition lower (c : ascii) : ascii :=
  let n := nat_of_ascii c in
  if (65 <=? n) && (n <=? 90) then ascii_of_nat (n + 32) else c.

(** The regular expressions are compiled with [IGNORECASE]. *)
Definition cclass_match (k : cclass) (c : ascii) : bool :=
  match k with
  | Digit => is_digit c
  | Range lo hi =>
      (nat_of_ascii lo <=? nat_of_ascii c) && (nat_of_ascii c <=? nat_of_ascii hi)
  | Chr x => Ascii.eqb (lower x) (lower c)
  end.

Definition word (s : string) : list cclass := map Chr (list_ascii_of_string s).

(** Abbreviated month names of the C locale, [a_month[1:]]. *)
Definition a_month : list string :=
  ["jan"; "feb"; "mar"; "apr"; "may"; "jun";
   "jul"; "aug"; "sep"; "oct"; "nov"; "dec"]%string.

(** The entries of [TimeRE]'s table for the directives this program's
    formats use ([%d %H %m %M %Y %b %%]).  The table's other keys
    (a A B c f G I j p S U u V w W x X y z Z) are not modelled; like
    every key of the table they are letters: ["-"] is none of them, so
    looking it up is the [KeyError] that [strptime] reports as a bad
    directive. *)
Definition TimeRE (c : ascii) : option item :=
  match c with
  | "d" => Some (Group "d" [[Chr "3"; Range "0" "1"]; [Range "1" "2"; Digit];
                            [Chr "0"; Range "1" "9"]; [Range "1" "9"];
                            [Chr " "; Range "1" "9"]])
  | "H" => Some (Group "H" [[Chr "2"; Range "0" "3"]; [Range "0" "1"; Digit];
                            [Digit]])
  | "m" => Some (Group "m" [[Chr "1"; Range "0" "2"]; [Chr "0"; Range "1" "9"];
                            [Range "1" "9"]])
  | "M" => Some (Group "M" [[Range "0" "5"; Digit]; [Digit]])
  | "Y" => Some (Group "Y" [[Digit; Digit; Digit; Digit]])
  | "b" => Some (Group "b" (map word a_month))
  | "%" => Some (Lit "%")
  | _ => None
  end.

(** [TimeRE.pattern]: runs of whitespace become [\s+], ["%x"] is replaced
    by the table's entry for [x], everything else matches itself.  [None]
    is the [KeyError] of an unknown directive or the [IndexError] of a
    trailing ["%"]; [strptime] turns both into [ValueError]. *)
Fixpoint pattern (in_space : bool) (format : list ascii) : option (list item) :=
  match format with
  | [] => Some []
  | c :: rest =>
      if is_space c then
        if in_space then pattern true rest
        else option_map (cons Spaces) (pattern true rest)
      else if Ascii.eqb c "%" then
        match rest with
        | [] => None
        | k :: rest' =>
            match TimeRE k with
            | None => None
            | Some it => option_map (cons it) (pattern false rest')
            end
        end
      else option_map (cons (Lit c)) (pattern false rest)
  end.

(** Matching a fixed sequence of character classes at the head of [s]:
    the matched text and what follows it. *)
Fixpoint seq_match (p : list cclass) (s : list ascii)
  : option (list ascii * list ascii) :=
  match p with
  | [] => Some ([], s)
  | k :: p' =>
      match s with
      | [] => None
      | c :: s' =>
          if cclass_match k c then
            match seq_match p' s' with
            | Some (m, r) => Some (c :: m, r)
            | None => None
            end
          else None
      end
  end.

(** The ways [\s+] can match at the head of [s], longest first (greedy):
    each is given by the text left over. *)
Fixpoint spaces_splits (s : list ascii) : list (list ascii) :=
  match s with
  | c :: s' => if is_space c then spaces_splits s' ++ [s'] else []
  | [] => []
  end.

Definition captures := list (ascii * list ascii).

(** All the ways an item matches at the head of [s], in the order a
    backtracking matcher tries them. *)
Definition match_item (it : item) (s : list ascii)
  : list (captures * list ascii) :=
  match it with
  | Lit c =>
      match s with
      | x :: s' => if Ascii.eqb (lower x) (lower c) then [([], s')] else []
      | [] => []
      end
  | Spaces => map (fun r => ([], r)) (spaces_splits s)
  | Group n alts =>
      flat_map (fun p => match seq_match p s with
                         | Some (m, r) => [([(n, m)], r)]
                         | None => []
                         end) alts
  end.

Fixpoint match_items (its : list item) (s : list ascii)
  : list (captures * list ascii) :=
  match its with
  | [] => [([], s)]
  | it :: its' =>
      flat_map (fun '(c1, r1) =>
                  map (fun '(c2, r2) => (c1 ++ c2, r2)) (match_items its' r1))
               (match_item it s)
  end.

(** [format_regex.match(data_string)]: the first match found. *)
Definition re_match (its : list item) (s : list ascii)
  : option (captures * list ascii) :=
  hd_error (match_items its s).

(** [int(text)] on a captured group (digits, possibly after a blank). *)
Definition int_of (text : list ascii) : Z :=
  fold_left (fun acc c =>
               if is_digit c then (acc * 10 + (Z.of_nat (nat_of_ascii c) - 48))%Z
               else acc) text 0%Z.

(** [a_month.index(text.lower())] *)
Fixpoint index_from (i : Z) (names : list string) (text : list ascii) : Z :=
  match names with
  | [] => i
  | n :: names' =>
      if list_eq_dec ascii_dec (list_ascii_of_string n) (map lower text)
      then i else index_from (i + 1)%Z names' text
  end.

(** The values [_strptime] collects from the matched groups. *)
Record fields := mk_fields {
  f_year : option Z; f_month : Z; f_day : Z; f_hour : Z; f_minute : Z }.

Definition initial_fields : fields := mk_fields None 1 1 0 0.

Definition convert (f : fields) (g : ascii * list ascii) : fields :=
  let (key, text) := g in
  match key with
  | "Y" => mk_fields (Some (int_of text)) (f_month f) (f_day f) (f_hour f) (f_minute f)
  | "m" => mk_fields (f_year f) (int_of text) (f_day f) (f_hour f) (f_minute f)
  | "b" => mk_fields (f_year f) (index_from 1 a_month text) (f_day f) (f_hour f) (f_minute f)
  | "d" => mk_fields (f_year f) (f_month f) (int_of text) (f_hour f) (f_minute f)
  | "H" => mk_fields (f_year f) (f_month f) (f_day f) (int_of text) (f_minute f)
  | "M" => mk_fields (f_year f) (f_month f) (f_day f) (f_hour f) (int_of text)
  | _ => f
  end.

(** [datetime.strptime(data_string, format)]; [None] is [ValueError]
    (bad directive, no match, unconverted data, or a date out of range). *)
Definition strptime (data_string format : string) : option datetime :=
  match pattern false (list_ascii_of_string format) with
  | None => None
  | Some its =>
      match re_match its (list_ascii_of_string data_string) with
      | None => None
      | Some (_, _ :: _) => None
      | Some (found, []) =>
          let f := fold_left convert found initial_fields in
          let y := match f_year f with Some y => y | None => 1900%Z end in
          datetime_new y (f_month f) (f_day f) (f_hour f) (f_minute f)
      end
  end.

End Strptime.

(* ================================================================== *)
(** * Time resolver (source lines 34-70) *)
(* ================================================================== *)

Section TimeResolver.
Local Open Scope string_scope.
Local Open Scope Z_scope.

(** [suggest_closest_obs_time(img_dt)]; [None] is the [OverflowError] of
    the date addition in the last branch. *)
Definition suggest_closest_obs_time (img_dt : datetime)
  : option (datetime * string) :=
  let img_hour := hour img_dt in
  let img_date := date_of img_dt in
  if img_hour <? 6 then
    Some (mk_datetime (d_year img_date) (d_month img_date) (d_day img_date)
                      0 0 0 0, "00Z")
  else if img_hour <? 18 then
    Some (mk_datetime (d_year img_date) (d_month img_date) (d_day img_date)
                      12 0 0 0, "12Z")
  else
    match date_add_one_day img_date with
    | Some next_day =>
        Some (mk_datetime (d_year next_day) (d_month next_day) (d_day next_day)
                          0 0 0 0, "00Z")
    | None => None
    end.

(** The two format strings of [parse_time_input], as written in the source. *)
Definition format_a : string := "%HZ %d %b %Y".
Definition format_b : string := "%Y-%-m-%d %H:%M".

Definition format_error_message : string :=
  "Error: Use 'HHZ DD Mon YYYY' (e.g., '12Z 12 Apr 2025') or 'YYYY-MM-DD HH:MM' (e.g., '2025-04-12 12:00').".

Definition synoptic_error_message : string :=
  "Error: Observation time must be at 00Z or 12Z (e.g., '00Z 12 Apr 2025' or '2025-04-12 00:00').".

(** [if suggested_time: print(f"Suggested observation time: ...")]:
    [None] and the empty string are falsy. *)
Definition suggestion_lines (suggested_time : option string) : list string :=
  match suggested_time with
  | Some (String c s) => ["Suggested observation time: " ++ String c s]
  | _ => []
  end.

(** The condition tested at line 59:
    [(obs_hour == 0 or obs_hour == 12) and obs_minute <= 15]. *)
Definition synoptic (dt : datetime) : bool :=
  ((hour dt =? 0) || (hour dt =? 12)) && (minute dt <=? 15).

(** The nested [try] of lines 46-51: format (a), then format (b). *)
Definition parse_formats (time_str : string) : option datetime :=
  match strptime time_str format_a with
  | Some dt => Some dt
  | None => strptime time_str format_b
  end.

(** Lines 56-64, for the [dt] that lines 46-51 have parsed: the returned
    pair and the lines printed. *)
Definition check_synoptic_hour (dt : datetime) (time_str : string)
  (allow_any_time : bool) (suggested_time : option string)
  : (option datetime * string) * list string :=
  if negb allow_any_time && negb (synoptic dt) then
    ((None, time_str),
     synoptic_error_message :: suggestion_lines suggested_time)
  else ((Some dt, time_str), []).

(** [parse_time_input(time_str, allow_any_time, suggested_time)]: the
    returned pair and the lines printed. *)
Definition parse_time_input (time_str : string) (allow_any_time : bool)
  (suggested_time : option string)
  : (option datetime * string) * list string :=
  match parse_formats time_str with
  | None =>
      ((None, time_str), format_error_message :: suggestion_lines suggested_time)
  | Some dt => check_synoptic_hour dt time_str allow_any_time suggested_time
  end.

Definition proximity_message (suggested_time : string) : string :=
  "Observation time is more than 6 hours from image time. Suggested observation time: "
  ++ suggested_time.

(** [check_time_proximity(obs_dt, img_dt, suggested_time)] *)
Definition check_time_proximity (obs_dt img_dt : datetime)
  (suggested_time : string) : bool * string :=
  let time_diff := Z.abs (datetime_sub obs_dt img_dt) in
  if timedelta_hours 6 <? time_diff
  then (false, proximity_message suggested_time)
  else (true, "").

End TimeResolver.

(* ================================================================== *)
(** * Profile table and level selection (source lines 115-144) *)
(* ================================================================== *)

Section Profile.
Local Open Scope string_scope.
Local Open Scope R_scope.

(** What [pd.read_csv] yields for a numeric whitespace-delimited table
    with a header row: the header tokens and the rows, each row holding
    one number per column; rows are labelled 0, 1, 2, ... (the default
    index). *)
Record DataFrame := mk_df { columns : list string; values : list (list R) }.

(** [df.rename(columns={'PRES': 'P', 'TEMP': 'T', 'DWPT': 'Td'})] *)
Definition rename_label (c : string) : string :=
  if String.eqb c "PRES" then "P"
  else if String.eqb c "TEMP" then "T"
  else if String.eqb c "DWPT" then "Td"
  else c.

Definition rename (df : DataFrame) : DataFrame :=
  mk_df (map rename_label (columns df)) (values df).

(** The mandatory header tokens, each with the label it is renamed to. *)
Definition required : list (string * string) :=
  [("PRES", "P"); ("TEMP", "T"); ("DWPT", "Td")].

(** [col in df.columns] *)
Definition has_column (df : DataFrame) (col : string) : bool :=
  existsb (String.eqb col) (columns df).

(** [all(col in df.columns for col in ['P', 'T', 'Td'])] *)
Definition has_required_columns (df : DataFrame) : bool :=
  forallb (has_column df) ["P"; "T"; "Td"].

Fixpoint positions (col : string) (cols : list string) (i : nat) : list nat :=
  match cols with
  | [] => []
  | c :: cols' =>
      if String.eqb c col then i :: positions col cols' (S i)
      else positions col cols' (S i)
  end.

(** [df[col]] as a column of numbers: defined when exactly one column
    carries the label.  (With a repeated label pandas returns a frame,
    not a series; with none it raises [KeyError].) *)
Definition series (df : DataFrame) (col : string) : option (list R) :=
  match positions col (columns df) 0 with
  | [i] => Some (map (fun row => nth i row 0) (values df))
  | _ => None
  end.

(** [x.between(lo, hi)]: both ends included. *)
Definition between (lo hi x : R) : bool := Rleb lo x && Rleb x hi.

Definition missing_columns_message : string :=
  "Data must include PRES, TEMP, and DWPT columns.".

Definition out_of_band_message : string :=
  "Data must include at least one level between 200 and 300 hPa.".

Definition no_between_message : string :=
  "'DataFrame' object has no attribute 'between'".

(** The [try] block of lines 115-121.  The argument is the outcome of
    [pd.read_csv]: the text of its exception, or the table.  The result
    is the text of the exception caught at line 122, or the renamed
    table. *)
Definition load_profile (read : string + DataFrame) : string + DataFrame :=
  match read with
  | inl e => inl e
  | inr df0 =>
      let df := rename df0 in
      if negb (has_required_columns df) then inl missing_columns_message
      else
        match series df "P" with
        | None => inl no_between_message
        | Some p =>
            if negb (existsb (between 200 300) p) then inl out_of_band_message
            else inr df
        end
  end.

(** A row of the table after line 126, with its index label. *)
Record Level := mk_level { label : nat; P : R; T : R; Td : R; RHi : R }.

Fixpoint levels_from (i : nat) (p t td : list R) : list Level :=
  match p, t, td with
  | pi :: p', ti :: t', tdi :: td' =>
      mk_level i pi ti tdi (calculate_rhi ti tdi) :: levels_from (S i) p' t' td'
  | _, _, _ => []
  end.

(** Line 126: the rows with their RHi.  [None] stands for the exception
    raised when the label T or Td is carried by several columns. *)
Definition with_rhi (df : DataFrame) : option (list Level) :=
  match series df "P", series df "T", series df "Td" with
  | Some p, Some t, Some td => Some (levels_from 0 p t td)
  | _, _, _ => None
  end.

(** Line 127: [df[df['P'].between(200, 300)]] *)
Definition df_flight (df : list Level) : list Level :=
  filter (fun r => between 200 300 (P r)) df.

Definition levels : list R := [200; 250; 300].

(** Lines 131-135, for one level. *)
Definition rhi_at (flight : list Level) (level : R) : option R :=
  if existsb (fun r => Reqb (P r) level) flight then
    option_map RHi (hd_error (filter (fun r => Reqb (P r) level) flight))
  else None.

(** Lines 129-135: the dictionary [rhi_results], in the order of [levels]. *)
Definition rhi_results (flight : list Level) : list (R * option R) :=
  map (fun level => (level, rhi_at flight level)) levels.

(** [Series.idxmax()]: the label of the first occurrence of the maximum. *)
Fixpoint idxmax_from (best : Level) (rest : list Level) : nat :=
  match rest with
  | [] => label best
  | r :: rest' =>
      if Rltb (RHi best) (RHi r) then idxmax_from r rest'
      else idxmax_from best rest'
  end.

(** [df_flight.loc[lbl]] *)
Definition loc (flight : list Level) (lbl : nat) : option Level :=
  find (fun r => Nat.eqb (label r) lbl) flight.

(** Lines 136-144: the row of greatest RHi, [None] on an empty band. *)
Definition max_rhi_row (flight : list Level) : option Level :=
  match flight with
  | [] => None
  | r :: rest => loc flight (idxmax_from r rest)
  end.

End Profile.

(* ================================================================== *)
(** * The run from line 92 on: proximity advice, analysis, report *)
(* ================================================================== *)

(** The prompts of lines 72-112 only collect text and call the functions
    above until they return a value; a [session] records what they have
    collected, together with the outcome of [pd.read_csv] on the pasted
    table. *)

Section Run.
Local Open Scope string_scope.

(** A printed line.  Lines that format a float keep the number; a
    [print] whose text starts with a newline is an empty line followed
    by the text. *)
Inductive printed :=
| Text (s : string)
| LevelRHi (level rhi : R) (persistence : string)
| LevelMissing (level : R)
| MaxRHi (max_rhi max_rhi_level : R)
| MaxTemps (max_rhi_t max_rhi_td : R).

(** How the run ends: the report is printed to its end, [exit()] is
    called, or an exception escapes. *)
Inductive termination := Completed | Exited | Uncaught.

(** What the prompts have collected when line 92 is reached. *)
Record session := mk_session {
  nws_id_station : string;
  image_time_date : string;
  img_dt : datetime;
  suggested_time : string;
  obs_time_date : string;
  obs_dt : datetime;
  image_location : string;
  read_csv_result : string + DataFrame }.

(** Lines 92-95. *)
Definition proximity_lines (s : session) : list printed :=
  let (is_valid_time, time_error) :=
    check_time_proximity (obs_dt s) (img_dt s) (suggested_time s) in
  if negb is_valid_time then
    [Text ("Warning: " ++ time_error);
     Text "Proceeding with calculations, but results may be less accurate."]
  else [].

(** Lines 154-160, for one level. *)
Definition level_line (entry : R * option R) : printed :=
  match entry with
  | (level, Some rhi) => LevelRHi level rhi (contrail_persistence rhi)
  | (level, None) => LevelMissing level
  end.

(** Lines 161-167. *)
Definition maximum_lines (row : option Level) : list printed :=
  match row with
  | Some r =>
      [Text ""; MaxRHi (RHi r) (P r); MaxTemps (T r) (Td r);
       Text (contrail_persistence (RHi r))]
  | None => [Text ""; Text "No data available in 200–300 hPa range."]
  end.

(** Lines 147-167. *)
Definition report (s : session) (flight : list Level) : list printed :=
  ([Text ""; Text "CONTRAIL PERSISTENCE ANALYSIS";
   Text "============================";
   Text ("NWS ID and Station: " ++ nws_id_station s);
   Text ("Observation Time: " ++ obs_time_date s ++ " UTC");
   Text ("Image Time: " ++ image_time_date s ++ " UTC");
   Text ("Image Location: " ++ image_location s);
   Text ""; Text "RHi at Flight Levels (200–300 hPa):"]
  ++ map level_line (rhi_results flight)
  ++ maximum_lines (max_rhi_row flight))%list.

(** Lines 114-167. *)
Definition analysis (s : session) : list printed * termination :=
  match load_profile (read_csv_result s) with
  | inl e =>
      ([Text ("Error: " ++ e ++ ". Please check your input format.")], Exited)
  | inr df =>
      match with_rhi df with
      | None => ([], Uncaught)
      | Some rows => (report s (df_flight rows), Completed)
      end
  end.

(** Lines 92-167: everything printed, and how the run ends. *)
Definition run (s : session) : list printed * termination :=
  let (out, t) := analysis s in ((proximity_lines s ++ out)%list, t).

End Run.

(* ================================================================== *)
(** * [datetime.strftime], for the format of the suggestion (line 85) *)
(* ================================================================== *)

Section Strftime.
Local Open Scope char_scope.
Local Open Scope Z_scope.

Definition digit_char (n : Z) : ascii := ascii_of_nat (48 + Z.to_nat n).

(** A number written with two, or four, digits, zero-filled. *)
Definition zero_padded2 (n : Z) : list ascii :=
  [digit_char (n / 10); digit_char (n mod 10)].

Definition zero_padded4 (n : Z) : list ascii :=
  [digit_char (n / 1000); digit_char (n / 100 mod 10);
   digit_char (n / 10 mod 10); digit_char (n mod 10)].

(** The abbreviated month names of the C locale, as [%b] prints them. *)
Definition month_abbreviation (m : Z) : list ascii :=
  list_ascii_of_string
    match m with
    | 1 => "Jan" | 2 => "Feb" | 3 => "Mar" | 4 => "Apr" | 5 => "May"
    | 6 => "Jun" | 7 => "Jul" | 8 => "Aug" | 9 => "Sep" | 10 => "Oct"
    | 11 => "Nov" | 12 => "Dec" | _ => ""
    end%string.

(** What a directive prints.  [%Y] is written with four digits: that is
    what every platform prints from year 1000 on (below, the C library
    decides whether zeros are filled in). *)
Definition directive_text (k : ascii) (dt : datetime) : option (list ascii) :=
  match k with
  | "H" => Some (zero_padded2 (hour dt))
  | "d" => Some (zero_padded2 (day dt))
  | "m" => Some (zero_padded2 (month dt))
  | "M" => Some (zero_padded2 (minute dt))
  | "b" => Some (month_abbreviation (month dt))
  | "Y" => Some (zero_padded4 (year dt))
  | "%" => Some ["%"]
  | _ => None
  end.

(** Directives are replaced by their text, every other character is
    copied (so is a directive outside the ones above). *)
Fixpoint strftime_chars (format : list ascii) (dt : datetime) : list ascii :=
  match format with
  | [] => []
  | c :: rest =>
      if Ascii.eqb c "%" then
        match rest with
        | [] => [c]
        | k :: rest' =>
            match directive_text k dt with
            | Some text => text ++ strftime_chars rest' dt
            | None => c :: k :: strftime_chars rest' dt
            end
        end
      else c :: strftime_chars rest dt
  end.

(** [dt.strftime(format)] *)
Definition strftime (dt : datetime) (format : string) : string :=
  string_of_list_ascii (strftime_chars (list_ascii_of_string format) dt).

End Strftime.

(* ================================================================== *)
(** * The prompts (source lines 72-112) and the whole session *)
(* ================================================================== *)

Section Prompts.
Local Open Scope string_scope.

(** What the session writes: the prompt of an [input(prompt)] call, or a
    printed line.  The lines typed by the user are the [inputs]; reading
    past their end is the [EOFError] of [input], which nothing catches. *)
Inductive event :=
| Prompted (prompt : string)
| Printed (line : printed).

(** [not text.strip()]: the text has only whitespace, or nothing. *)
Definition blank (text : string) : bool :=
  forallb is_space (list_ascii_of_string text).

(** Lines 73-76 and 97-100: ask until the answer is not blank.  The
    result is the answer and the inputs left, [None] at the end of the
    inputs. *)
Fixpoint ask_nonblank (prompt error : string) (inputs : list string)
  : list event * option (string * list string) :=
  match inputs with
  | [] => ([Prompted prompt], None)
  | answer :: rest =>
      if blank answer then
        let (ev, r) := ask_nonblank prompt error rest in
        (Prompted prompt :: Printed (Text error) :: ev, r)
      else ([Prompted prompt], Some (answer, rest))
  end.

(** Lines 78-82 and 86-90: ask until [parse_time_input] returns a time. *)
Fixpoint ask_time (prompt : string) (allow_any_time : bool)
  (suggested_time : option string) (inputs : list string)
  : list event * option (datetime * string * list string) :=
  match inputs with
  | [] => ([Prompted prompt], None)
  | answer :: rest =>
      match parse_time_input answer allow_any_time suggested_time with
      | ((Some dt, text), out) =>
          (Prompted prompt :: map (fun l => Printed (Text l)) out,
           Some (dt, text, rest))
      | ((None, _), out) =>
          let (ev, r) := ask_time prompt allow_any_time suggested_time rest in
          ((Prompted prompt :: map (fun l => Printed (Text l)) out) ++ ev, r)%list
      end
  end.

Definition empty_paste_error : string :=
  "Error: Radiosonde data cannot be empty.".

(** Lines 103-111: read lines up to an empty one; an empty line that
    comes before any other is answered by an error and skipped.  [lines]
    holds the lines read so far. *)
Fixpoint read_paste (lines : list string) (inputs : list string)
  : list event * option (list string * list string) :=
  match inputs with
  | [] => ([], None)
  | line :: rest =>
      if String.eqb line "" then
        match lines with
        | [] =>
            let (ev, r) := read_paste lines rest in
            (Printed (Text empty_paste_error) :: ev, r)
        | _ :: _ => ([], Some (lines, rest))
        end
      else read_paste (lines ++ [line]) rest
  end.

(** ["\n".join(lines)] *)
Fixpoint join_lines (lines : list string) : string :=
  match lines with
  | [] => ""
  | [l] => l
  | l :: ls => l ++ String (ascii_of_nat 10) (join_lines ls)
  end.

Definition station_prompt : string :=
  "NWS ID and Station Name (e.g., '72365 - ABQ Albuquerque'): ".
Definition station_error : string := "Error: Station name cannot be empty.".
Definition image_prompt : string :=
  "Image Date and Time UTC (e.g., '01Z 12 Apr 2025' or '2025-04-12 01:00'): ".
Definition observation_prompt (suggested_time : string) : string :=
  "Observation Time and Date UTC (e.g., '00Z 12 Apr 2025' or '2025-04-12 00:00', suggested: "
  ++ suggested_time ++ "): ".
Definition location_prompt : string :=
  "Image Location - nearest town or region (e.g., 'Albuquerque, NM' or 'Central New Mexico'): ".
Definition location_error : string := "Error: Location cannot be empty.".
Definition paste_heading : string :=
  "Radiosonde Data (paste from Wyoming archive, 300–200 hPa, press Enter twice to finish):".

Section WithReadCsv.

(** [pd.read_csv(StringIO(user_data), delim_whitespace=True)], with the
    text of its exception on the left. *)
Variable read_csv : string -> string + DataFrame.

(** Lines 73-112: what is written, and the session collected; [None]
    when an exception escapes (the inputs end, or the suggestion
    overflows). *)
Definition collect (inputs : list string) : list event * option session :=
  let (ev1, r1) := ask_nonblank station_prompt station_error inputs in
  match r1 with
  | None => (ev1, None)
  | Some (nws, in1) =>
  let (ev2, r2) := ask_time image_prompt true None in1 in
  match r2 with
  | None => ((ev1 ++ ev2)%list, None)
  | Some (img, image_text, in2) =>
  match suggest_closest_obs_time img with
  | None => ((ev1 ++ ev2)%list, None)
  | Some (suggested_dt, suggested_z) =>
  let suggested := strftime suggested_dt "%HZ %d %b %Y" in
  let (ev3, r3) :=
    ask_time (observation_prompt suggested) false (Some suggested) in2 in
  match r3 with
  | None => ((ev1 ++ ev2 ++ ev3)%list, None)
  | Some (obs, obs_text, in3) =>
  (* lines 92-95 run before the location and the table are known;
     [proximity_lines] looks at neither *)
  let ev4 :=
    map Printed
        (proximity_lines
           (mk_session nws image_text img suggested obs_text obs "" (inl ""))) in
  let (ev5, r5) := ask_nonblank location_prompt location_error in3 in
  match r5 with
  | None => ((ev1 ++ ev2 ++ ev3 ++ ev4 ++ ev5)%list, None)
  | Some (place, in5) =>
  let ev6 := [Printed (Text ""); Printed (Text paste_heading)] in
  let (ev7, r7) := read_paste [] in5 in
  match r7 with
  | None => ((ev1 ++ ev2 ++ ev3 ++ ev4 ++ ev5 ++ ev6 ++ ev7)%list, None)
  | Some (lines, _) =>
      ((ev1 ++ ev2 ++ ev3 ++ ev4 ++ ev5 ++ ev6 ++ ev7)%list,
       Some (mk_session nws image_text img suggested obs_text obs place
                        (read_csv (join_lines lines))))
  end end end end end end.

(** Lines 73-167: everything written, and how the session ends. *)
Definition interactive (inputs : list string) : list event * termination :=
  let (ev, r) := collect inputs in
  match r with
  | None => (ev, Uncaught)
  | Some s =>
      let (out, t) := analysis s in ((ev ++ map Printed out)%list, t)
  end.

End WithReadCsv.

End Prompts.

(* ================================================================== *)
(** * Properties of the humidity engine *)
(* ================================================================== *)

Section HumidityFacts.
Local Open Scope R_scope.

Lemma Rleb_true_iff x y : Rleb x y = true <-> x <= y.
Proof. unfold Rleb. destruct (Rle_dec x y); split; auto; discriminate. Qed.

Lemma Rleb_false_iff x y : Rleb x y = false <-> y < x.
Proof.
  unfold Rleb. destruct (Rle_dec x y); split; auto; try discriminate; lra.
Qed.

Lemma Rltb_true_iff x y : Rltb x y = true <-> x < y.
Proof. unfold Rltb. destruct (Rlt_dec x y); split; auto; discriminate. Qed.

Lemma Rltb_false_iff x y : Rltb x y = false <-> y <= x.
Proof.
  unfold Rltb. destruct (Rlt_dec x y); split; auto; try discriminate; lra.
Qed.

Lemma Reqb_true_iff x y : Reqb x y = true <-> x = y.
Proof. unfold Reqb. destruct (Req_dec_T x y); split; auto; discriminate. Qed.

Lemma Reqb_false_iff x y : Reqb x y = false <-> x <> y.
Proof.
  unfold Reqb. destruct (Req_dec_T x y); split; auto; try discriminate.
  contradiction.
Qed.

Lemma saturation_vapor_pressure_water_pos Td_c :
  0 < saturation_vapor_pressure_water Td_c.
Proof.
  unfold saturation_vapor_pressure_water.
  apply Rmult_lt_0_compat; [ lra | apply exp_pos ].
Qed.

Lemma saturation_vapor_pressure_ice_pos T_c :
  0 < saturation_vapor_pressure_ice T_c.
Proof.
  unfold saturation_vapor_pressure_ice.
  apply Rmult_lt_0_compat; [ lra | apply exp_pos ].
Qed.

(** The exponent [a*x/(x+b)] of both formulas grows with [x] on the side
    of the pole where [x + b] is positive: the difference of two values
    is [a*b*(y-x)] over the product of the denominators. *)
Lemma magnus_exponent_increasing a b x y :
  0 < a -> 0 < b -> 0 < x + b -> x < y ->
  a * x / (x + b) < a * y / (y + b).
Proof.
  intros Ha Hb Hx Hxy.
  assert (Hy : 0 < y + b) by lra.
  apply Rmult_lt_reg_r with ((x + b) * (y + b)).
  - apply Rmult_lt_0_compat; lra.
  - replace (a * x / (x + b) * ((x + b) * (y + b))) with (a * x * (y + b))
      by (field; lra).
    replace (a * y / (y + b) * ((x + b) * (y + b))) with (a * y * (x + b))
      by (field; lra).
    assert (0 < a * b * (y - x)) by (repeat apply Rmult_lt_0_compat; lra).
    lra.
Qed.

Lemma saturation_vapor_pressure_water_increasing x y :
  0 < x + 243.5 -> x < y ->
  saturation_vapor_pressure_water x < saturation_vapor_pressure_water y.
Proof.
  intros Hx Hxy. unfold saturation_vapor_pressure_water.
  apply Rmult_lt_compat_l; [ lra | ].
  apply exp_increasing. apply magnus_exponent_increasing; lra.
Qed.

Lemma saturation_vapor_pressure_ice_increasing x y :
  0 < x + 272.62 -> x < y ->
  saturation_vapor_pressure_ice x < saturation_vapor_pressure_ice y.
Proof.
  intros Hx Hxy. unfold saturation_vapor_pressure_ice.
  apply Rmult_lt_compat_l; [ lra | ].
  apply exp_increasing. apply magnus_exponent_increasing; lra.
Qed.

(** The verdict is inclusive at 100. *)
Example contrail_persistence_threshold :
  contrail_persistence 100 = "Persistent contrails possible"%string
  /\ contrail_persistence 99.999 = "Persistent contrails not possible"%string.
Proof.
  unfold contrail_persistence. split.
  - replace (Rleb 100 100) with true
      by (symmetry; apply Rleb_true_iff; lra).
    reflexivity.
  - replace (Rleb 100 99.999) with false
      by (symmetry; apply Rleb_false_iff; lra).
    reflexivity.
Qed.

(** C2: away from the poles of the two exponents, [calculate_rhi T Td] is
    100 times the water-phase vapour pressure at the dewpoint divided by
    the ice-phase saturation pressure at the temperature. *)
Theorem calculate_rhi_formula T_c Td_c :
  T_c + 272.62 <> 0 -> Td_c + 243.5 <> 0 ->
  calculate_rhi T_c Td_c
  = 100 * (6.112 * exp (17.67 * Td_c / (Td_c + 243.5)))
    / (6.112 * exp (22.46 * T_c / (T_c + 272.62))).
Proof.
  intros _ _.
  unfold calculate_rhi, saturation_vapor_pressure_water,
    saturation_vapor_pressure_ice; cbv zeta.
  unfold Rdiv. ring.
Qed.

Lemma calculate_rhi_formula_witness :
  calculate_rhi (-40) (-45)
  = 100 * (6.112 * exp (17.67 * (-45) / (-45 + 243.5)))
    / (6.112 * exp (22.46 * (-40) / (-40 + 272.62))).
Proof. apply calculate_rhi_formula; lra. Defined.

(** C9: where both denominators are positive, [calculate_rhi] grows
    strictly with the dewpoint at a fixed temperature and falls strictly
    with the temperature at a fixed dewpoint. *)
Theorem calculate_rhi_monotone T1 T2 Td1 Td2 :
  0 < T1 + 272.62 -> 0 < Td1 + 243.5 -> T1 < T2 -> Td1 < Td2 ->
  calculate_rhi T1 Td1 < calculate_rhi T1 Td2
  /\ calculate_rhi T2 Td1 < calculate_rhi T1 Td1.
Proof.
  intros HT HTd HT12 HTd12.
  pose proof (saturation_vapor_pressure_water_increasing _ _ HTd HTd12) as Hw.
  pose proof (saturation_vapor_pressure_ice_increasing _ _ HT HT12) as Hi.
  pose proof (saturation_vapor_pressure_ice_pos T1) as Hp1.
  pose proof (saturation_vapor_pressure_ice_pos T2) as Hp2.
  pose proof (saturation_vapor_pressure_water_pos Td1) as Hq.
  unfold calculate_rhi; cbv zeta. split.
  - apply Rmult_lt_compat_r; [ lra | ].
    unfold Rdiv. apply Rmult_lt_compat_r; [ | exact Hw ].
    apply Rinv_0_lt_compat; exact Hp1.
  - apply Rmult_lt_compat_r; [ lra | ].
    unfold Rdiv. apply Rmult_lt_compat_l; [ exact Hq | ].
    apply Rinv_lt_contravar; [ | exact Hi ].
    apply Rmult_lt_0_compat; assumption.
Qed.

Lemma calculate_rhi_monotone_witness :
  calculate_rhi (-50) (-55) < calculate_rhi (-50) (-45)
  /\ calculate_rhi (-40) (-55) < calculate_rhi (-50) (-55).
Proof. apply calculate_rhi_monotone; lra. Defined.

End HumidityFacts.

(* ================================================================== *)
(** * Properties of the calendar *)
(* ================================================================== *)

Section CalendarFacts.
Local Open Scope Z_scope.

Lemma is_leap_spec y :
  is_leap y = true <-> (y mod 4 = 0 /\ (y mod 100 <> 0 \/ y mod 400 = 0)).
Proof.
  unfold is_leap.
  rewrite andb_true_iff, orb_true_iff, negb_true_iff, !Z.eqb_eq, Z.eqb_neq.
  tauto.
Qed.

Lemma days_before_year_succ y :
  days_before_year (y + 1)
  = days_before_year y + (if is_leap y then 366 else 365).
Proof.
  destruct (is_leap y) eqn:E.
  - apply is_leap_spec in E. unfold days_before_year; cbv zeta.
    replace (y + 1 - 1) with y by lia.
    Z.div_mod_to_equations. lia.
  - assert (H : ~ (y mod 4 = 0 /\ (y mod 100 <> 0 \/ y mod 400 = 0))).
    { intro H. apply is_leap_spec in H. congruence. }
    unfold days_before_year; cbv zeta.
    replace (y + 1 - 1) with y by lia.
    Z.div_mod_to_equations. lia.
Qed.

Lemma valid_date_spec d :
  valid_date d = true <->
  (1 <= d_year d <= 9999 /\ 1 <= d_month d <= 12 /\
   1 <= d_day d <= days_in_month (d_year d) (d_month d)).
Proof.
  unfold valid_date, MINYEAR, MAXYEAR.
  rewrite !andb_true_iff, !Z.leb_le. tauto.
Qed.

Lemma valid_datetime_spec dt :
  valid_datetime dt = true <->
  (valid_date (date_of dt) = true /\ 0 <= hour dt <= 23 /\
   0 <= minute dt <= 59 /\ 0 <= second dt <= 59 /\
   0 <= microsecond dt <= 999999).
Proof.
  unfold valid_datetime.
  rewrite !andb_true_iff, !Z.leb_le. tauto.
Qed.

Ltac month_cases m :=
  let H := fresh in
  assert (H : m = 1 \/ m = 2 \/ m = 3 \/ m = 4 \/ m = 5 \/ m = 6 \/ m = 7 \/
              m = 8 \/ m = 9 \/ m = 10 \/ m = 11 \/ m = 12) by lia;
  repeat (destruct H as [H | H]); subst m.

Lemma days_before_month_succ y m :
  1 <= m < 12 ->
  days_before_month y (m + 1) = days_before_month y m + days_in_month y m.
Proof.
  intros Hm. unfold days_before_month, days_in_month.
  month_cases m; try lia; simpl; destruct (is_leap y); reflexivity.
Qed.

(** The model of [d + timedelta(days=1)] agrees with the ordinal
    arithmetic by which the library defines it: the result is the date
    one ordinal further, and it is a date. *)
Lemma date_add_one_day_ordinal d nd :
  valid_date d = true -> date_add_one_day d = Some nd ->
  toordinal nd = toordinal d + 1 /\ valid_date nd = true.
Proof.
  intros Hv Hn. apply valid_date_spec in Hv.
  destruct d as [y m dd]; simpl in *.
  unfold date_add_one_day in Hn; simpl in Hn.
  destruct (dd <? days_in_month y m) eqn:E1.
  - injection Hn as <-. apply Z.ltb_lt in E1. split.
    + unfold toordinal; simpl; lia.
    + apply valid_date_spec; simpl; lia.
  - apply Z.ltb_ge in E1.
    destruct (m <? 12) eqn:E2.
    + injection Hn as <-. apply Z.ltb_lt in E2. split.
      * unfold toordinal; simpl.
        rewrite days_before_month_succ by lia. lia.
      * apply valid_date_spec; simpl.
        assert (0 < days_in_month y (m + 1)).
        { unfold days_in_month.
          month_cases m; try lia; simpl; try destruct (is_leap y); lia. }
        lia.
    + apply Z.ltb_ge in E2.
      destruct (y <? MAXYEAR) eqn:E3; [ | discriminate ].
      injection Hn as <-. apply Z.ltb_lt in E3. unfold MAXYEAR in E3.
      assert (m = 12) by lia; subst m.
      split.
      * unfold toordinal; simpl.
        rewrite days_before_year_succ.
        unfold days_before_month, days_in_month in *; simpl in *.
        destruct (is_leap y); simpl; lia.
      * apply valid_date_spec; simpl. lia.
Qed.

(** The addition overflows on the last day of year 9999 and only there. *)
Lemma date_add_one_day_overflow d :
  valid_date d = true ->
  (date_add_one_day d = None <-> d = mk_date 9999 12 31).
Proof.
  intros Hv. apply valid_date_spec in Hv.
  destruct d as [y m dd]; simpl in *.
  unfold date_add_one_day; simpl. split.
  - destruct (dd <? days_in_month y m) eqn:E1; [ discriminate | ].
    destruct (m <? 12) eqn:E2; [ discriminate | ].
    destruct (y <? MAXYEAR) eqn:E3; [ discriminate | ].
    intros _. apply Z.ltb_ge in E1, E2, E3. unfold MAXYEAR in E3.
    assert (m = 12) by lia; subst m. simpl in *.
    f_equal; lia.
  - intros H; injection H as -> -> ->. reflexivity.
Qed.

(** The time elapsed between [h] o'clock and a moment of the same day. *)
Lemma to_microseconds_same_day img h :
  to_microseconds img
  - to_microseconds (mk_datetime (year img) (month img) (day img) h 0 0 0)
  = (((hour img - h) * 60 + minute img) * 60 + second img) * 1000000
    + microsecond img.
Proof. unfold to_microseconds, date_of; simpl. lia. Qed.

End CalendarFacts.

(* ================================================================== *)
(** * Properties of the time resolver *)
(* ================================================================== *)

Section TimeResolverFacts.
Local Open Scope string_scope.
Local Open Scope Z_scope.

(** Format (a) on the prompt's own example, with the case and spacing
    liberties of the compiled pattern, and on dates that do not exist. *)
Example strptime_format_a_examples :
  strptime "12Z 12 Apr 2025" format_a = Some (mk_datetime 2025 4 12 12 0 0 0)
  /\ strptime "0z  5 apr 2025" format_a = Some (mk_datetime 2025 4 5 0 0 0 0)
  /\ strptime "12Z 29 Feb 2024" format_a = Some (mk_datetime 2024 2 29 12 0 0 0)
  /\ strptime "12Z 29 Feb 2025" format_a = None
  /\ strptime "24Z 12 Apr 2025" format_a = None
  /\ strptime "12Z 12 Apr 2025 UTC" format_a = None.
Proof. repeat split; reflexivity. Qed.

(** Format (b) contains the directive ["%-m"]: compiling it fails, so no
    text matches it. *)
Lemma strptime_format_b_bad_directive data_string :
  strptime data_string format_b = None.
Proof. reflexivity. Qed.

(** With ["%m"] in its place the text of the prompt is read as intended. *)
Example strptime_iso_with_percent_m :
  strptime "2025-04-12 00:00" "%Y-%m-%d %H:%M"
  = Some (mk_datetime 2025 4 12 0 0 0 0).
Proof. reflexivity. Qed.

(** Only format (a) can succeed. *)
Lemma parse_formats_is_format_a time_str :
  parse_formats time_str = strptime time_str format_a.
Proof.
  unfold parse_formats. rewrite strptime_format_b_bad_directive.
  destruct (strptime time_str format_a); reflexivity.
Qed.

(** C1: the text ["2025-04-12 00:00"], of the form YYYY-MM-DD HH:MM that
    the prompts announce, is not parsed: whatever [allow_any_time] is,
    [parse_time_input] prints the format error and returns no timestamp. *)
Theorem parse_time_input_rejects_iso_text :
  parse_time_input "2025-04-12 00:00" true None
  = ((None, "2025-04-12 00:00"), [format_error_message])
  /\ parse_time_input "2025-04-12 00:00" false None
     = ((None, "2025-04-12 00:00"), [format_error_message]).
Proof. split; reflexivity. Qed.

Lemma synoptic_spec dt :
  synoptic dt = true <-> ((hour dt = 0 \/ hour dt = 12) /\ minute dt <= 15).
Proof.
  unfold synoptic.
  rewrite andb_true_iff, orb_true_iff, !Z.eqb_eq, Z.leb_le. tauto.
Qed.


(** The window of the check: 00:15 and 12:00 pass, 00:16 and 01:00 do
    not. *)
Example check_synoptic_hour_window :
  let at_time h mi := mk_datetime 2025 4 12 h mi 0 0 in
  fst (fst (check_synoptic_hour (at_time 0 15) "" false None))
  = Some (at_time 0 15)
  /\ fst (fst (check_synoptic_hour (at_time 12 0) "" false None))
     = Some (at_time 12 0)
  /\ fst (fst (check_synoptic_hour (at_time 0 16) "" false None)) = None
  /\ fst (fst (check_synoptic_hour (at_time 1 0) "" false None)) = None
  /\ parse_time_input "03Z 12 Apr 2025" false (Some "00Z 12 Apr 2025")
     = ((None, "03Z 12 Apr 2025"),
        [synoptic_error_message;
         "Suggested observation time: 00Z 12 Apr 2025"]).
Proof. repeat split; reflexivity. Qed.

(** The five hours the specification samples, on an ordinary day. *)
Example suggest_closest_obs_time_examples :
  let at_hour h := mk_datetime 2025 4 12 h 30 0 0 in
  suggest_closest_obs_time (at_hour 5)
  = Some (mk_datetime 2025 4 12 0 0 0 0, "00Z")
  /\ suggest_closest_obs_time (at_hour 6)
     = Some (mk_datetime 2025 4 12 12 0 0 0, "12Z")
  /\ suggest_closest_obs_time (at_hour 17)
     = Some (mk_datetime 2025 4 12 12 0 0 0, "12Z")
  /\ suggest_closest_obs_time (at_hour 18)
     = Some (mk_datetime 2025 4 13 0 0 0 0, "00Z")
  /\ suggest_closest_obs_time (at_hour 23)
     = Some (mk_datetime 2025 4 13 0 0 0 0, "00Z").
Proof. repeat split; reflexivity. Qed.

(** C4, as stated, fails on the last day the calendar has: at 18:00 on
    9999-12-31 (a time format (a) accepts) the date addition overflows and
    the function returns no suggestion at all. *)
Lemma suggest_closest_obs_time_overflow :
  let img := mk_datetime 9999 12 31 18 0 0 0 in
  strptime "18Z 31 Dec 9999" format_a = Some img
  /\ valid_datetime img = true /\ 18 <= hour img
  /\ ~ exists obs lbl, suggest_closest_obs_time img = Some (obs, lbl).
Proof.
  cbv zeta. split; [ reflexivity | ]. split; [ reflexivity | ].
  split; [ simpl; lia | ].
  intros (obs & lbl & H). discriminate H.
Qed.

(** C4 (amended): before 06:00 the suggestion is the same date at 00:00,
    labelled "00Z"; from 06:00 to before 18:00 it is the same date at
    12:00, labelled "12Z"; from 18:00 on, and on any date but 9999-12-31,
    it is the next calendar date at 00:00, labelled "00Z". *)
Theorem suggest_closest_obs_time_rule img :
  valid_datetime img = true ->
  (hour img < 6 ->
   suggest_closest_obs_time img
   = Some (mk_datetime (year img) (month img) (day img) 0 0 0 0, "00Z"))
  /\ (6 <= hour img < 18 ->
      suggest_closest_obs_time img
      = Some (mk_datetime (year img) (month img) (day img) 12 0 0 0, "12Z"))
  /\ (18 <= hour img -> date_of img <> mk_date 9999 12 31 ->
      exists next_day,
        toordinal next_day = toordinal (date_of img) + 1
        /\ valid_date next_day = true
        /\ suggest_closest_obs_time img
           = Some (mk_datetime (d_year next_day) (d_month next_day)
                               (d_day next_day) 0 0 0 0, "00Z")).
Proof.
  intros Hv. apply valid_datetime_spec in Hv. destruct Hv as (Hd & _).
  unfold suggest_closest_obs_time; cbv zeta.
  repeat split.
  - intros H. apply Z.ltb_lt in H. rewrite H. reflexivity.
  - intros [H1 H2]. apply Z.ltb_ge in H1. apply Z.ltb_lt in H2.
    rewrite H1, H2. reflexivity.
  - intros H Hmax.
    assert (E1 : (hour img <? 6) = false) by (apply Z.ltb_ge; lia).
    assert (E2 : (hour img <? 18) = false) by (apply Z.ltb_ge; lia).
    rewrite E1, E2.
    destruct (date_add_one_day (date_of img)) as [nd | ] eqn:E.
    + exists nd. destruct (date_add_one_day_ordinal _ _ Hd E). auto.
    + apply date_add_one_day_overflow in E; [ contradiction | assumption ].
Qed.

Lemma suggest_closest_obs_time_rule_witness :
  let img := mk_datetime 2024 12 31 23 40 0 0 in
  valid_datetime img = true
  /\ exists next_day,
       toordinal next_day = toordinal (date_of img) + 1
       /\ valid_date next_day = true
       /\ suggest_closest_obs_time img
          = Some (mk_datetime (d_year next_day) (d_month next_day)
                              (d_day next_day) 0 0 0 0, "00Z").
Proof.
  cbv zeta. split; [ reflexivity | ].
  apply (suggest_closest_obs_time_rule (mk_datetime 2024 12 31 23 40 0 0)).
  - reflexivity.
  - simpl; lia.
  - discriminate.
Defined.

Lemma check_time_proximity_close obs img suggested :
  Z.abs (datetime_sub obs img) <= timedelta_hours 6 ->
  check_time_proximity obs img suggested = (true, "").
Proof.
  intros H. unfold check_time_proximity; cbv zeta.
  assert (E : (timedelta_hours 6 <? Z.abs (datetime_sub obs img)) = false)
    by (apply Z.ltb_ge; exact H).
  rewrite E. reflexivity.
Qed.

(** What C10 asks of a suggested time [obs] for the image time [img]. *)
Lemma synoptic_and_close obs img :
  minute obs = 0 -> (hour obs = 0 \/ hour obs = 12) ->
  Z.abs (datetime_sub obs img) <= timedelta_hours 6 ->
  minute obs = 0 /\ (hour obs = 0 \/ hour obs = 12)
  /\ synoptic obs = true
  /\ (forall text suggested,
         parse_formats text = Some obs ->
         parse_time_input text false suggested = ((Some obs, text), []))
  /\ Z.abs (datetime_sub obs img) <= timedelta_hours 6
  /\ (forall suggested,
         check_time_proximity obs img suggested = (true, "")).
Proof.
  intros H0 H12 Hclose.
  assert (Hsyn : synoptic obs = true) by (apply synoptic_spec; lia).
  repeat split; auto.
  - intros text suggested Hp. unfold parse_time_input, check_synoptic_hour.
    rewrite Hp, Hsyn. reflexivity.
  - intros s. apply check_time_proximity_close. exact Hclose.
Qed.

(** C10: whenever [suggest_closest_obs_time] returns a time for an image
    time, that time has minute 0 and hour 0 or 12, passes the synoptic
    check of [parse_time_input] (any text parsing to it is accepted with
    [allow_any_time = false]), lies at most 6 hours from the image time,
    and [check_time_proximity] raises no warning for the pair.  The
    function returns a time for every image time except from 18:00 on
    9999-12-31. *)
Theorem suggested_time_synoptic_and_close img :
  valid_datetime img = true ->
  match suggest_closest_obs_time img with
  | Some (obs, _) =>
      minute obs = 0 /\ (hour obs = 0 \/ hour obs = 12)
      /\ synoptic obs = true
      /\ (forall text suggested,
             parse_formats text = Some obs ->
             parse_time_input text false suggested = ((Some obs, text), []))
      /\ Z.abs (datetime_sub obs img) <= timedelta_hours 6
      /\ (forall suggested,
             check_time_proximity obs img suggested = (true, ""))
  | None => date_of img = mk_date 9999 12 31 /\ 18 <= hour img
  end.
Proof.
  intros Hv. apply valid_datetime_spec in Hv.
  destruct Hv as (Hd & Hh & Hm & Hs & Hu).
  unfold suggest_closest_obs_time; cbv zeta.
  destruct (hour img <? 6) eqn:E1.
  - apply Z.ltb_lt in E1. apply synoptic_and_close; simpl; auto.
    unfold datetime_sub, timedelta_hours.
    pose proof (to_microseconds_same_day img 0). lia.
  - apply Z.ltb_ge in E1. destruct (hour img <? 18) eqn:E2.
    + apply Z.ltb_lt in E2. apply synoptic_and_close; simpl; auto.
      unfold datetime_sub, timedelta_hours.
      pose proof (to_microseconds_same_day img 12). lia.
    + apply Z.ltb_ge in E2.
      destruct (date_add_one_day (date_of img)) as [nd | ] eqn:E.
      * destruct (date_add_one_day_ordinal _ _ Hd E) as (Ho & _).
        apply synoptic_and_close; simpl; auto.
        unfold datetime_sub, timedelta_hours, to_microseconds. simpl.
        unfold date_of at 1; simpl.
        replace (mk_date (d_year nd) (d_month nd) (d_day nd)) with nd
          by (destruct nd; reflexivity).
        rewrite Ho. lia.
      * apply date_add_one_day_overflow in E; auto.
Qed.

Lemma suggested_time_synoptic_and_close_witness :
  let img := mk_datetime 2025 4 12 18 0 0 0 in
  valid_datetime img = true
  /\ match suggest_closest_obs_time img with
     | Some (obs, _) =>
         minute obs = 0 /\ (hour obs = 0 \/ hour obs = 12)
         /\ synoptic obs = true
         /\ (forall text suggested,
                parse_formats text = Some obs ->
                parse_time_input text false suggested
                = ((Some obs, text), []))
         /\ Z.abs (datetime_sub obs img) <= timedelta_hours 6
         /\ (forall suggested,
                check_time_proximity obs img suggested = (true, ""))
     | None => date_of img = mk_date 9999 12 31 /\ 18 <= hour img
     end.
Proof.
  cbv zeta. split; [ reflexivity | ].
  apply (suggested_time_synoptic_and_close (mk_datetime 2025 4 12 18 0 0 0)).
  reflexivity.
Defined.

End TimeResolverFacts.

(* ================================================================== *)
(** * Properties of the level selection *)
(* ================================================================== *)

Section SelectionFacts.
Local Open Scope R_scope.

Lemma between_spec lo hi x : between lo hi x = true <-> lo <= x <= hi.
Proof. unfold between. rewrite andb_true_iff, !Rleb_true_iff. tauto. Qed.

(** The lookup of one level: nothing when no row carries exactly that
    pressure, else the RHi of the first row that does. *)
Lemma rhi_at_spec flight level :
  match rhi_at flight level with
  | None => forall r, In r flight -> P r <> level
  | Some v =>
      exists before r after,
        flight = before ++ r :: after
        /\ P r = level /\ RHi r = v
        /\ (forall x, In x before -> P x <> level)
  end.
Proof.
  unfold rhi_at. induction flight as [ | a flight IH ]; simpl.
  - intros r [].
  - destruct (Reqb (P a) level) eqn:E; simpl.
    + apply Reqb_true_iff in E.
      exists [], a, flight. simpl. repeat split; auto.
    + apply Reqb_false_iff in E.
      destruct (existsb (fun r => Reqb (P r) level) flight).
      * destruct (hd_error (filter (fun r => Reqb (P r) level) flight))
          as [ r0 | ]; simpl in *.
        -- destruct IH as (before & r & after & -> & Hp & Hr & Hb).
           exists (a :: before), r, after. repeat split; auto.
           intros x [ <- | Hx ]; auto.
        -- intros r [ <- | Hr ]; auto.
      * intros r [ <- | Hr ]; auto.
Qed.

(** The scan of [idxmax]: with [best] the strict maximum of what precedes
    it and no later row seen so far above it, the scan ends on a row that
    is strictly above every earlier row and at least every later one. *)
Lemma idxmax_from_split rest : forall pre best mid,
  (forall x, In x pre -> RHi x < RHi best) ->
  (forall x, In x mid -> RHi x <= RHi best) ->
  exists before r after,
    pre ++ best :: mid ++ rest = before ++ r :: after
    /\ idxmax_from best rest = label r
    /\ (forall x, In x before -> RHi x < RHi r)
    /\ (forall x, In x after -> RHi x <= RHi r).
Proof.
  induction rest as [ | a rest IH ]; intros pre best mid Hpre Hmid; simpl.
  - exists pre, best, mid. rewrite app_nil_r. auto.
  - destruct (Rltb (RHi best) (RHi a)) eqn:E.
    + apply Rltb_true_iff in E.
      destruct (IH (pre ++ best :: mid) a []) as (before & r & after & Heq & H).
      * intros x Hx. apply in_app_or in Hx. destruct Hx as [ Hx | [ <- | Hx ] ].
        -- specialize (Hpre x Hx). lra.
        -- exact E.
        -- specialize (Hmid x Hx). lra.
      * intros x [].
      * exists before, r, after. split; [ | exact H ].
        rewrite <- Heq. simpl. rewrite <- app_assoc. reflexivity.
    + apply Rltb_false_iff in E.
      destruct (IH pre best (mid ++ [a])) as (before & r & after & Heq & H).
      * exact Hpre.
      * intros x Hx. apply in_app_or in Hx. destruct Hx as [ Hx | [ <- | [] ] ].
        -- auto.
        -- exact E.
      * exists before, r, after. split; [ | exact H ].
        rewrite <- Heq. rewrite <- app_assoc. reflexivity.
Qed.

(** With distinct labels, [loc] at a row's label is that row. *)
Lemma loc_unique flight : forall before r after,
  NoDup (map label flight) ->
  flight = before ++ r :: after ->
  loc flight (label r) = Some r.
Proof.
  unfold loc.
  induction flight as [ | a flight IH ]; intros before r after Hnd Heq.
  - destruct before; discriminate.
  - simpl. destruct before as [ | b before ]; simpl in Heq.
    + injection Heq as -> ->. rewrite Nat.eqb_refl. reflexivity.
    + injection Heq as -> Heq.
      simpl in Hnd. apply NoDup_cons_iff in Hnd. destruct Hnd as (Hnot & Hnd).
      destruct (Nat.eqb (label b) (label r)) eqn:E.
      * apply Nat.eqb_eq in E. exfalso. apply Hnot. rewrite E, Heq.
        apply in_map. apply in_or_app. right. left. reflexivity.
      * apply (IH before r after Hnd Heq).
Qed.

Lemma levels_from_labels p : forall i t td r,
  In r (levels_from i p t td) -> (i <= label r)%nat.
Proof.
  induction p as [ | a p IH ]; intros i t td r H; simpl in H.
  - contradiction.
  - destruct t as [ | b t ]; [ contradiction | ].
    destruct td as [ | c td ]; [ contradiction | ].
    destruct H as [ <- | H ]; simpl; [ lia | ].
    apply IH in H. lia.
Qed.

Lemma levels_from_NoDup p : forall i t td,
  NoDup (map label (levels_from i p t td)).
Proof.
  induction p as [ | a p IH ]; intros i t td; simpl.
  - constructor.
  - destruct t as [ | b t ]; [ constructor | ].
    destruct td as [ | c td ]; [ constructor | ].
    simpl. constructor; [ | apply IH ].
    intros H. apply in_map_iff in H. destruct H as (r & Hl & Hr).
    apply levels_from_labels in Hr. lia.
Qed.

Lemma NoDup_map_filter {A B} (f : A -> B) (g : A -> bool) l :
  NoDup (map f l) -> NoDup (map f (filter g l)).
Proof.
  induction l as [ | a l IH ]; simpl; intros H; [ constructor | ].
  apply NoDup_cons_iff in H. destruct H as (Hnot & Hnd).
  destruct (g a); simpl; auto.
  constructor; auto.
  intros Hin. apply Hnot. apply in_map_iff in Hin.
  destruct Hin as (x & Hx & Hf). apply filter_In in Hf.
  rewrite <- Hx. apply in_map. tauto.
Qed.

Lemma max_rhi_row_spec flight :
  NoDup (map label flight) ->
  match max_rhi_row flight with
  | None => flight = []
  | Some r =>
      exists before after,
        flight = before ++ r :: after
        /\ (forall x, In x before -> RHi x < RHi r)
        /\ (forall x, In x after -> RHi x <= RHi r)
  end.
Proof.
  intros Hnd. destruct flight as [ | a rest ]; [ reflexivity | ].
  destruct (idxmax_from_split rest [] a [])
    as (before & r & after & Heq & Hidx & Hb & Ha);
    try (intros x []).
  simpl in Heq. unfold max_rhi_row. rewrite Hidx.
  rewrite (loc_unique (a :: rest) before r after Hnd Heq).
  exists before, after. auto.
Qed.

(** C7: the flight band holds exactly the rows with pressure in
    [200, 300]; on an empty band [max_rhi_row] is [None]; otherwise it is
    a row of the band whose RHi is strictly greater than that of every
    earlier row of the band and at least that of every later one: the
    greatest RHi, and among equals the first in input order. *)
Theorem max_rhi_row_greatest_first p t td :
  let flight := df_flight (levels_from 0 p t td) in
  (forall r, In r flight <->
             In r (levels_from 0 p t td) /\ 200 <= P r <= 300)
  /\ match max_rhi_row flight with
     | None => flight = []
     | Some r =>
         exists before after,
           flight = before ++ r :: after
           /\ (forall x, In x before -> RHi x < RHi r)
           /\ (forall x, In x after -> RHi x <= RHi r)
     end.
Proof.
  cbv zeta. split.
  - intros r. unfold df_flight. rewrite filter_In, between_spec. tauto.
  - apply max_rhi_row_spec. unfold df_flight.
    apply NoDup_map_filter. apply levels_from_NoDup.
Qed.

(** Two rows of the band with the same temperature and dewpoint, hence
    the same RHi, after a row outside the band: the earlier of the two is
    selected. *)
Example max_rhi_row_tie :
  max_rhi_row (df_flight (levels_from 0 [500; 300; 250] [-20; -40; -40]
                                        [-30; -45; -45]))
  = Some (mk_level 1 300 (-40) (-45) (calculate_rhi (-40) (-45))).
Proof.
  unfold df_flight; simpl.
  replace (between 200 300 500) with false
    by (symmetry; apply not_true_is_false; rewrite between_spec; lra).
  replace (between 200 300 300) with true
    by (symmetry; apply between_spec; lra).
  replace (between 200 300 250) with true
    by (symmetry; apply between_spec; lra).
  unfold max_rhi_row, idxmax_from; simpl.
  replace (Rltb (calculate_rhi (-40) (-45)) (calculate_rhi (-40) (-45)))
    with false by (symmetry; apply Rltb_false_iff; lra).
  reflexivity.
Qed.

(** C8: [rhi_results] holds one entry per canonical level 200, 250, 300,
    each obtained by [rhi_at]; the entry of a level is [None] when no row
    of the band has exactly that pressure, and otherwise the RHi of the
    first row, in input order, whose pressure equals the level: no value
    is ever computed from neighbouring levels. *)
Theorem rhi_results_exact_first_match flight :
  rhi_results flight
  = [(200, rhi_at flight 200); (250, rhi_at flight 250);
     (300, rhi_at flight 300)]
  /\ forall level,
       match rhi_at flight level with
       | None => forall r, In r flight -> P r <> level
       | Some v =>
           exists before r after,
             flight = before ++ r :: after
             /\ P r = level /\ RHi r = v
             /\ (forall x, In x before -> P x <> level)
       end.
Proof. split; [ reflexivity | apply rhi_at_spec ]. Qed.

(** Rows at 260 and 240 hPa and twice at 300 hPa: 250 is not found
    although it lies between two rows, and 300 takes its first row. *)
Example rhi_results_example (a b c d : R) :
  rhi_results [mk_level 0 300 0 0 a; mk_level 1 260 0 0 b;
               mk_level 2 240 0 0 c; mk_level 3 300 0 0 d]
  = [(200, None); (250, None); (300, Some a)].
Proof.
  unfold rhi_results, levels, rhi_at; simpl.
  repeat match goal with
         | |- context [Reqb ?x ?y] =>
             first [ replace (Reqb x y) with true
                       by (symmetry; apply Reqb_true_iff; lra)
                   | replace (Reqb x y) with false
                       by (symmetry; apply Reqb_false_iff; lra) ]
         end.
  reflexivity.
Qed.

End SelectionFacts.

(* ================================================================== *)
(** * Properties of the run *)
(* ================================================================== *)

Section RunFacts.
Local Open Scope string_scope.

Lemma rename_label_short c long short :
  In (long, short) required ->
  rename_label c = short -> c = long \/ c = short.
Proof.
  intros Hin. unfold rename_label.
  destruct (String.eqb c "PRES") eqn:E1;
    [ apply String.eqb_eq in E1 | ];
    [ | destruct (String.eqb c "TEMP") eqn:E2;
        [ apply String.eqb_eq in E2 | ] ];
    [ | | destruct (String.eqb c "DWPT") eqn:E3;
          [ apply String.eqb_eq in E3 | ] ];
    simpl in Hin;
    destruct Hin as [ H | [ H | [ H | [] ] ] ];
    injection H as <- <-; intros Hr; subst; auto; discriminate.
Qed.

Lemma has_column_rename df long short :
  In (long, short) required ->
  ~ In long (columns df) -> ~ In short (columns df) ->
  has_column (rename df) short = false.
Proof.
  intros Hin Hl Hs. unfold has_column, rename; simpl.
  destruct (existsb (String.eqb short) (map rename_label (columns df))) eqn:E;
    [ | reflexivity ].
  apply existsb_exists in E. destruct E as (x & Hx & He).
  apply String.eqb_eq in He. subst x.
  apply in_map_iff in Hx. destruct Hx as (c & Hc & Hcin).
  destruct (rename_label_short c long short Hin Hc) as [ E | E ];
    rewrite E in Hcin; contradiction.
Qed.

Lemma has_required_columns_false df long short :
  In (long, short) required ->
  ~ In long (columns df) -> ~ In short (columns df) ->
  has_required_columns (rename df) = false.
Proof.
  intros Hin Hl Hs.
  pose proof (has_column_rename df long short Hin Hl Hs) as H.
  unfold has_required_columns. simpl in Hin.
  destruct Hin as [ E | [ E | [ E | [] ] ] ]; injection E as <- <-;
    simpl; rewrite H; rewrite ?andb_false_r; reflexivity.
Qed.

(** C3, as stated, fails on a header that has no PRES column but a
    column already named P: the check is made after the renaming, so the
    table is accepted and the run goes on to print its report. *)
Lemma header_with_P_instead_of_PRES_accepted :
  let t := mk_datetime 2025 4 12 12 0 0 0 in
  let df := mk_df ["P"; "TEMP"; "DWPT"] [[250; -50; -52]%R] in
  let s := mk_session "72365 - ABQ" "12Z 12 Apr 2025" t "12Z 12 Apr 2025"
                      "12Z 12 Apr 2025" t "Albuquerque, NM" (inr df) in
  ~ In "PRES" (columns df)
  /\ load_profile (read_csv_result s)
     = inr (mk_df ["P"; "T"; "Td"] [[250; -50; -52]%R])
  /\ snd (run s) = Completed.
Proof.
  assert (Hb : between 200 300 250 = true) by (apply between_spec; lra).
  cbv zeta. split; [ | split ].
  - simpl. intros [ H | [ H | [ H | [] ] ] ]; discriminate H.
  - simpl. unfold load_profile, series. simpl. rewrite Hb. reflexivity.
  - unfold run, analysis. simpl read_csv_result.
    unfold load_profile, series. simpl. rewrite Hb. reflexivity.
Qed.

(** C3 (amended): when the table is read and its header lacks one of
    PRES, TEMP, DWPT and also the short name (P, T, Td) that the column
    would be renamed to, the run prints, after the proximity advice if
    any, the single line "Error: Data must include PRES, TEMP, and DWPT
    columns.. Please check your input format." and ends by [exit()]:
    nothing of the report is printed and no exception escapes. *)
Theorem missing_column_is_fatal s df long short :
  read_csv_result s = inr df ->
  In (long, short) required ->
  ~ In long (columns df) -> ~ In short (columns df) ->
  run s
  = ((proximity_lines s
      ++ [Text "Error: Data must include PRES, TEMP, and DWPT columns.. Please check your input format."])%list,
     Exited).
Proof.
  intros Hread Hin Hl Hs.
  unfold run, analysis, load_profile. rewrite Hread.
  rewrite (has_required_columns_false df long short Hin Hl Hs).
  reflexivity.
Qed.

Lemma missing_column_is_fatal_witness :
  let t := mk_datetime 2025 4 12 12 0 0 0 in
  let df := mk_df ["PRES"; "TEMP"] [[250; -50]%R] in
  let s := mk_session "72365 - ABQ" "12Z 12 Apr 2025" t "12Z 12 Apr 2025"
                      "12Z 12 Apr 2025" t "Albuquerque, NM" (inr df) in
  ~ In "DWPT" (columns df)
  /\ run s
     = ([Text "Error: Data must include PRES, TEMP, and DWPT columns.. Please check your input format."],
        Exited).
Proof.
  cbv zeta. split.
  - simpl. intros [ H | [ H | [] ] ]; discriminate H.
  - refine (missing_column_is_fatal
              (mk_session "72365 - ABQ" "12Z 12 Apr 2025"
                 (mk_datetime 2025 4 12 12 0 0 0) "12Z 12 Apr 2025"
                 "12Z 12 Apr 2025" (mk_datetime 2025 4 12 12 0 0 0)
                 "Albuquerque, NM" (inr (mk_df ["PRES"; "TEMP"] [[250; -50]%R])))
              (mk_df ["PRES"; "TEMP"] [[250; -50]%R]) "DWPT" "Td" eq_refl _ _ _).
    + simpl. auto.
    + simpl. intros [ H | [ H | [] ] ]; discriminate H.
    + simpl. intros [ H | [ H | [] ] ]; discriminate H.
Defined.

(** C6: [check_time_proximity] answers [False] exactly when the absolute
    difference of the two times is strictly more than 6 hours; the message
    then ends with the suggested time, and is empty otherwise.  The answer
    only adds two printed lines (the warning and the notice that the
    calculation proceeds): what the analysis prints and how the run ends
    do not depend on the two times. *)
Theorem check_time_proximity_advisory nws itd img sug otd obs place read :
  let s := mk_session nws itd img sug otd obs place read in
  let verdict := check_time_proximity obs img sug in
  (fst verdict = false
   <-> (timedelta_hours 6 < Z.abs (datetime_sub obs img))%Z)
  /\ (fst verdict = false ->
      snd verdict
      = "Observation time is more than 6 hours from image time. Suggested observation time: "
        ++ sug)
  /\ (fst verdict = true -> snd verdict = "")
  /\ proximity_lines s
     = (if fst verdict then []
        else [Text ("Warning: " ++ snd verdict);
              Text "Proceeding with calculations, but results may be less accurate."])
  /\ run s = ((proximity_lines s ++ fst (analysis s))%list, snd (analysis s))
  /\ forall img' sug' obs',
       analysis (mk_session nws itd img' sug' otd obs' place read)
       = analysis s.
Proof.
  cbv zeta.
  assert (Hv : check_time_proximity obs img sug
               = if (timedelta_hours 6 <? Z.abs (datetime_sub obs img))%Z
                 then (false, proximity_message sug) else (true, ""))
    by reflexivity.
  split; [ | split; [ | split; [ | split; [ | split ] ] ] ].
  - rewrite Hv, <- Z.ltb_lt.
    destruct (timedelta_hours 6 <? Z.abs (datetime_sub obs img))%Z; simpl;
      split; auto; discriminate.
  - rewrite Hv.
    destruct (timedelta_hours 6 <? Z.abs (datetime_sub obs img))%Z; simpl;
      [ reflexivity | discriminate ].
  - rewrite Hv.
    destruct (timedelta_hours 6 <? Z.abs (datetime_sub obs img))%Z; simpl;
      [ discriminate | reflexivity ].
  - unfold proximity_lines; simpl.
    destruct (check_time_proximity obs img sug) as [ [ | ] msg ]; reflexivity.
  - unfold run. destruct (analysis _); reflexivity.
  - reflexivity.
Qed.

(** A sounding time a day late: the warning is printed and the report
    follows all the same. *)
Example run_after_warning :
  let df := mk_df ["PRES"; "TEMP"; "DWPT"] [[250; -50; -52]%R] in
  let s := mk_session "72365 - ABQ" "01Z 12 Apr 2025"
                      (mk_datetime 2025 4 12 1 0 0 0) "00Z 12 Apr 2025"
                      "00Z 13 Apr 2025" (mk_datetime 2025 4 13 0 0 0 0)
                      "Albuquerque, NM" (inr df) in
  fst (check_time_proximity (obs_dt s) (img_dt s) (suggested_time s)) = false
  /\ snd (run s) = Completed.
Proof.
  assert (Hb : between 200 300 250 = true) by (apply between_spec; lra).
  cbv zeta. split; [ reflexivity | ].
  unfold run, analysis. simpl read_csv_result.
  unfold load_profile, series. simpl. rewrite Hb. reflexivity.
Qed.

End RunFacts.

(* ================================================================== *)
(** * Properties of the timestamps accepted *)
(* ================================================================== *)

Section ParsedTimes.
Local Open Scope char_scope.
Local Open Scope Z_scope.

(** Every captured group of a match is a group of the pattern. *)
Lemma match_items_keys its : forall s c r k text,
  In (c, r) (match_items its s) -> In (k, text) c ->
  exists alts, In (Group k alts) its.
Proof.
  induction its as [ | it its IH ]; intros s c r k text Hin Hk; simpl in Hin.
  - destruct Hin as [ H | [] ]. injection H as <- <-. destruct Hk.
  - apply in_flat_map in Hin. destruct Hin as ([c1 r1] & H1 & H2).
    apply in_map_iff in H2. destruct H2 as ([c2 r2] & E & H2).
    injection E as <- <-. apply in_app_or in Hk. destruct Hk as [ Hk | Hk ].
    + destruct it as [ n alts | x | ]; simpl in H1.
      * apply in_flat_map in H1. destruct H1 as (p & _ & H1).
        destruct (seq_match p s) as [ [m r'] | ]; [ | destruct H1 ].
        destruct H1 as [ H1 | [] ]. injection H1 as <- <-.
        destruct Hk as [ Hk | [] ]. injection Hk as <- <-.
        exists alts. left; reflexivity.
      * destruct s as [ | y s' ]; [ destruct H1 | ].
        destruct (Ascii.eqb (lower y) (lower x)); [ | destruct H1 ].
        destruct H1 as [ H1 | [] ]. injection H1 as <- <-. destruct Hk.
      * apply in_map_iff in H1. destruct H1 as (x & E & _).
        injection E as <- <-. destruct Hk.
    + destruct (IH _ _ _ _ _ H2 Hk) as (alts & Ha).
      exists alts. right; exact Ha.
Qed.

(** A group other than [%M] leaves the minute as it is. *)
Lemma convert_minute f k text :
  k <> "M" -> f_minute (convert f (k, text)) = f_minute f.
Proof.
  intros Hk. unfold convert.
  destruct k as [b0 b1 b2 b3 b4 b5 b6 b7].
  destruct b0, b1, b2, b3, b4, b5, b6, b7; try reflexivity.
  contradiction Hk; reflexivity.
Qed.

Lemma fold_convert_minute c : forall f,
  (forall k text, In (k, text) c -> k <> "M") ->
  f_minute (fold_left convert c f) = f_minute f.
Proof.
  induction c as [ | [k text] c IH ]; intros f H; simpl; [ reflexivity | ].
  rewrite IH.
  - apply convert_minute. apply (H k text). left; reflexivity.
  - intros k' t' Hin. apply (H k' t'). right; exact Hin.
Qed.

Lemma datetime_new_some y m d h mi dt :
  datetime_new y m d h mi = Some dt ->
  valid_datetime dt = true /\ dt = mk_datetime y m d h mi 0 0.
Proof.
  unfold datetime_new.
  destruct (valid_datetime (mk_datetime y m d h mi 0 0)) eqn:E;
    [ | discriminate ].
  intros H; injection H as <-. auto.
Qed.

Lemma strptime_format_a_on_the_hour text dt :
  strptime text format_a = Some dt ->
  valid_datetime dt = true
  /\ minute dt = 0 /\ second dt = 0 /\ microsecond dt = 0.
Proof.
  unfold strptime.
  destruct (pattern false (list_ascii_of_string format_a)) as [ its | ] eqn:Ep;
    [ | discriminate ].
  destruct (re_match its (list_ascii_of_string text)) as [ [found rest] | ] eqn:Em;
    [ | discriminate ].
  destruct rest; [ | discriminate ].
  intros H. apply datetime_new_some in H. destruct H as (Hv & ->).
  split; [ exact Hv | ]. simpl. repeat split.
  rewrite fold_convert_minute; [ reflexivity | ].
  intros k t Hin.
  unfold re_match in Em.
  destruct (match_items its (list_ascii_of_string text)) as [ | x l ] eqn:El;
    [ discriminate | ].
  simpl in Em. injection Em as ->.
  assert (Hin' : In (found, []) (match_items its (list_ascii_of_string text)))
    by (rewrite El; left; reflexivity).
  destruct (match_items_keys _ _ _ _ _ _ Hin' Hin) as (alts & Ha).
  vm_compute in Ep. injection Ep as <-.
  simpl in Ha.
  repeat (destruct Ha as [ Ha | Ha ]; [ try discriminate Ha; injection Ha as <- _; discriminate | ]).
  destruct Ha.
Qed.

Local Open Scope string_scope.

(** X1: whenever [parse_time_input] returns a timestamp, the text was
    read by format (a): the timestamp is a valid datetime on the hour
    (minute, second and microsecond are 0), the text is echoed unchanged
    and nothing is printed; with [allow_any_time = false] its hour is 0
    or 12, so the 15-minute tolerance of the check never comes into play. *)
Theorem parse_time_input_accepts_whole_hours text allow suggested dt echoed out :
  parse_time_input text allow suggested = ((Some dt, echoed), out) ->
  echoed = text /\ out = []
  /\ strptime text format_a = Some dt
  /\ valid_datetime dt = true
  /\ minute dt = 0 /\ second dt = 0 /\ microsecond dt = 0
  /\ (allow = false -> hour dt = 0 \/ hour dt = 12).
Proof.
  unfold parse_time_input. rewrite parse_formats_is_format_a.
  destruct (strptime text format_a) as [ dt' | ] eqn:Ep; [ | discriminate ].
  unfold check_synoptic_hour.
  destruct (negb allow && negb (synoptic dt')) eqn:Ec; [ discriminate | ].
  intros H; injection H as <- <- <-.
  destruct (strptime_format_a_on_the_hour _ _ Ep) as (Hv & Hm & Hs & Hu).
  repeat split; auto.
  intros ->. simpl in Ec. apply negb_false_iff in Ec.
  apply synoptic_spec in Ec. tauto.
Qed.

Lemma parse_time_input_accepts_whole_hours_witness :
  parse_time_input "12Z 12 Apr 2025" false None
  = ((Some (mk_datetime 2025 4 12 12 0 0 0), "12Z 12 Apr 2025"), [])
  /\ strptime "12Z 12 Apr 2025" format_a
     = Some (mk_datetime 2025 4 12 12 0 0 0).
Proof.
  split; [ reflexivity | ].
  apply (parse_time_input_accepts_whole_hours
           "12Z 12 Apr 2025" false None (mk_datetime 2025 4 12 12 0 0 0)
           "12Z 12 Apr 2025" []).
  reflexivity.
Defined.
End ParsedTimes.

(* ================================================================== *)
(** * Properties of the suggestion and of its text *)
(* ================================================================== *)

Section StrftimeFacts.
Local Open Scope char_scope.
Local Open Scope Z_scope.

(** A property of every integer of a short range, from its instances. *)
Lemma Z_range_cases (Q : Z -> Prop) (lo : Z) (n : nat) :
  Forall Q (map (fun i => lo + Z.of_nat i) (seq 0 n)) ->
  forall z, lo <= z < lo + Z.of_nat n -> Q z.
Proof.
  intros H z Hz. rewrite Forall_forall in H.
  replace z with (lo + Z.of_nat (Z.to_nat (z - lo))) by lia.
  apply H. apply in_map_iff. exists (Z.to_nat (z - lo)). split; [ reflexivity | ].
  apply in_seq. lia.
Qed.

Lemma digit_char_spec n :
  0 <= n < 10 ->
  is_digit (digit_char n) = true /\ is_space (digit_char n) = false
  /\ Z.of_nat (nat_of_ascii (digit_char n)) - 48 = n.
Proof.
  intros Hn. revert n Hn.
  apply (Z_range_cases _ 0 10). repeat constructor.
Qed.

(** A match keeps when text is added after the text matched. *)
Lemma seq_match_app p : forall s m r rest,
  seq_match p s = Some (m, r) ->
  seq_match p (s ++ rest) = Some (m, r ++ rest)%list.
Proof.
  induction p as [ | k p IH ]; intros s m r rest H; simpl in *.
  - injection H as <- <-. reflexivity.
  - destruct s as [ | c s ]; [ discriminate | ]. simpl.
    destruct (cclass_match k c); [ | discriminate ].
    destruct (seq_match p s) as [ [m' r'] | ] eqn:E; [ | discriminate ].
    injection H as <- <-. rewrite (IH _ _ _ rest E). reflexivity.
Qed.

(** A pattern no longer than the text fails on the text extended if it
    fails on the text. *)
Lemma seq_match_app_none p : forall s rest,
  (List.length p <= List.length s)%nat ->
  seq_match p s = None -> seq_match p (s ++ rest) = None.
Proof.
  induction p as [ | k p IH ]; intros s rest Hl H; simpl in *.
  - discriminate.
  - destruct s as [ | c s ]; simpl in *; [ lia | ].
    destruct (cclass_match k c); [ | reflexivity ].
    destruct (seq_match p s) as [ [m' r'] | ] eqn:E; [ discriminate | ].
    rewrite (IH s rest); [ reflexivity | lia | exact E ].
Qed.

Lemma group_match_app n alts s rest :
  Forall (fun p => (List.length p <= List.length s)%nat) alts ->
  match_item (Group n alts) (s ++ rest)
  = map (fun cr => (fst cr, (snd cr ++ rest)%list)) (match_item (Group n alts) s).
Proof.
  intros H. unfold match_item.
  induction H as [ | p alts Hp _ IH ]; simpl; [ reflexivity | ].
  rewrite map_app, IH. f_equal.
  destruct (seq_match p s) as [ [m r] | ] eqn:E.
  - rewrite (seq_match_app _ _ _ _ rest E). reflexivity.
  - rewrite (seq_match_app_none _ _ rest Hp E). reflexivity.
Qed.

Lemma group_head_app n alts s rest :
  Forall (fun p => (List.length p <= List.length s)%nat) alts ->
  hd_error (match_item (Group n alts) s) = Some ([(n, s)], []) ->
  hd_error (match_item (Group n alts) (s ++ rest)) = Some ([(n, s)], rest).
Proof.
  intros Hl H. rewrite (group_match_app _ _ _ _ Hl).
  destruct (match_item (Group n alts) s) as [ | [c r] l ]; [ discriminate | ].
  simpl in *. injection H as -> ->. reflexivity.
Qed.

(** The first way a list of items matches, from the first way its head
    matches when the rest matches after it. *)
Lemma match_items_head it its s c1 r1 c2 r2 :
  hd_error (match_item it s) = Some (c1, r1) ->
  hd_error (match_items its r1) = Some (c2, r2) ->
  hd_error (match_items (it :: its) s) = Some ((c1 ++ c2)%list, r2).
Proof.
  intros H1 H2. simpl.
  destruct (match_item it s) as [ | [c r] l ]; [ discriminate | ].
  simpl in H1. injection H1 as -> ->. simpl.
  destruct (match_items its r1) as [ | [c r] l' ]; [ discriminate | ].
  simpl in H2. injection H2 as -> ->. reflexivity.
Qed.

Lemma zero_padded2_digits n :
  0 <= n < 100 ->
  is_space (digit_char (n / 10)) = false
  /\ int_of (zero_padded2 n) = n.
Proof.
  intros Hn.
  assert (Ha : 0 <= n / 10 < 10) by (Z.div_mod_to_equations; lia).
  assert (Hb : 0 <= n mod 10 < 10) by (Z.div_mod_to_equations; lia).
  destruct (digit_char_spec _ Ha) as (Da & Sa & Va).
  destruct (digit_char_spec _ Hb) as (Db & _ & Vb).
  split; [ exact Sa | ].
  unfold int_of, zero_padded2. cbn [fold_left]. rewrite Da, Db, Va, Vb.
  Z.div_mod_to_equations; lia.
Qed.

Lemma zero_padded4_digits n :
  0 <= n < 10000 ->
  is_space (digit_char (n / 1000)) = false
  /\ seq_match [Digit; Digit; Digit; Digit] (zero_padded4 n)
     = Some (zero_padded4 n, [])
  /\ int_of (zero_padded4 n) = n.
Proof.
  intros Hn.
  assert (Ha : 0 <= n / 1000 < 10) by (Z.div_mod_to_equations; lia).
  assert (Hb : 0 <= n / 100 mod 10 < 10) by (Z.div_mod_to_equations; lia).
  assert (Hc : 0 <= n / 10 mod 10 < 10) by (Z.div_mod_to_equations; lia).
  assert (Hd : 0 <= n mod 10 < 10) by (Z.div_mod_to_equations; lia).
  destruct (digit_char_spec _ Ha) as (Da & Sa & Va).
  destruct (digit_char_spec _ Hb) as (Db & _ & Vb).
  destruct (digit_char_spec _ Hc) as (Dc & _ & Vc).
  destruct (digit_char_spec _ Hd) as (Dd & _ & Vd).
  split; [ exact Sa | ]. split.
  - unfold zero_padded4. cbn [seq_match cclass_match].
    rewrite Da, Db, Dc, Dd. reflexivity.
  - unfold int_of, zero_padded4. cbn [fold_left].
    rewrite Da, Db, Dc, Dd, Va, Vb, Vc, Vd.
    Z.div_mod_to_equations; lia.
Qed.

Lemma hour_head it h rest :
  TimeRE "H" = Some it -> 0 <= h < 24 ->
  hd_error (match_item it (zero_padded2 h ++ rest))
  = Some ([("H", zero_padded2 h)], rest).
Proof.
  intros Hit Hh. injection Hit as <-. apply group_head_app.
  - repeat constructor.
  - revert h Hh. apply (Z_range_cases _ 0 24). repeat constructor.
Qed.

Lemma day_head it d rest :
  TimeRE "d" = Some it -> 1 <= d < 32 ->
  hd_error (match_item it (zero_padded2 d ++ rest))
  = Some ([("d", zero_padded2 d)], rest).
Proof.
  intros Hit Hd. injection Hit as <-. apply group_head_app.
  - repeat constructor.
  - revert d Hd. apply (Z_range_cases _ 1 31). repeat constructor.
Qed.

Lemma month_head it m rest :
  TimeRE "b" = Some it -> 1 <= m < 13 ->
  hd_error (match_item it (month_abbreviation m ++ rest))
  = Some ([("b", month_abbreviation m)], rest)
  /\ index_from 1 a_month (month_abbreviation m) = m
  /\ exists c text, month_abbreviation m = c :: text /\ is_space c = false.
Proof.
  intros Hit Hm. injection Hit as <-. split; [ | split ].
  - apply group_head_app.
    + revert m Hm. apply (Z_range_cases _ 1 12). repeat constructor.
    + revert m Hm. apply (Z_range_cases _ 1 12). repeat constructor.
  - revert m Hm. apply (Z_range_cases _ 1 12). repeat constructor.
  - revert m Hm. apply (Z_range_cases _ 1 12).
    repeat constructor; eexists; eexists; split; reflexivity.
Qed.

Lemma year_head it y :
  TimeRE "Y" = Some it -> 0 <= y < 10000 ->
  hd_error (match_items [it] (zero_padded4 y))
  = Some ([("Y", zero_padded4 y)], []).
Proof.
  intros Hit Hy. injection Hit as <-.
  destruct (zero_padded4_digits y Hy) as (_ & Hm & _).
  cbn [match_items match_item flat_map]. rewrite Hm. reflexivity.
Qed.

Lemma spaces_head s c rest :
  s = c :: rest -> is_space c = false ->
  hd_error (match_item Spaces (" " :: s)) = Some ([], s).
Proof.
  intros -> H. cbn [match_item spaces_splits].
  change (is_space " ") with true. cbv iota. rewrite H. reflexivity.
Qed.

Lemma days_in_month_le_31 y m :
  1 <= m <= 12 -> days_in_month y m <= 31.
Proof.
  intros Hm.
  apply (Z_range_cases (fun m => days_in_month y m <= 31) 1 12); [ | lia ].
  repeat constructor; unfold days_in_month; simpl;
    try destruct (is_leap y); lia.
Qed.

Lemma strptime_strftime_format_a dt :
  valid_datetime dt = true ->
  minute dt = 0 -> second dt = 0 -> microsecond dt = 0 ->
  1000 <= year dt ->
  strptime (strftime dt format_a) format_a = Some dt.
Proof.
  intros Hv Hmi Hs Hu Hy.
  pose proof Hv as Hv'. apply valid_datetime_spec in Hv'.
  destruct Hv' as (Hd & Hh & _). apply valid_date_spec in Hd.
  destruct dt as [y m d h mi s u]; simpl in *. subst mi s u.
  assert (Hdm : d <= 31).
  { pose proof (days_in_month_le_31 y m ltac:(lia)). lia. }
  unfold strptime, strftime. rewrite list_ascii_of_string_of_list_ascii.
  change (pattern false (list_ascii_of_string format_a))
    with (match TimeRE "H", TimeRE "d", TimeRE "b", TimeRE "Y" with
          | Some gh, Some gd, Some gb, Some gy =>
              Some [gh; Lit "Z"; Spaces; gd; Spaces; gb; Spaces; gy]
          | _, _, _, _ => None
          end).
  destruct (TimeRE "H") as [ gh | ] eqn:EH; [ | discriminate ].
  destruct (TimeRE "d") as [ gd | ] eqn:Ed; [ | discriminate ].
  destruct (TimeRE "b") as [ gb | ] eqn:Eb; [ | discriminate ].
  destruct (TimeRE "Y") as [ gy | ] eqn:EY; [ | discriminate ].
  change (strftime_chars (list_ascii_of_string format_a)
            (mk_datetime y m d h 0 0 0))
    with (zero_padded2 h ++ "Z" :: " " :: zero_padded2 d
          ++ " " :: month_abbreviation m ++ " " :: zero_padded4 y ++ [])%list.
  rewrite app_nil_r.
  destruct (zero_padded2_digits h ltac:(lia)) as (_ & Vh).
  destruct (zero_padded2_digits d ltac:(lia)) as (Sd & Vd).
  destruct (zero_padded4_digits y ltac:(lia)) as (Sy & _ & Vy).
  destruct (month_head gb m (" " :: zero_padded4 y) Eb ltac:(lia))
    as (Hb & Vm & c & text & Ec & Sc).
  assert (Hmatch :
    re_match [gh; Lit "Z"; Spaces; gd; Spaces; gb; Spaces; gy]
      (zero_padded2 h ++ "Z" :: " " :: zero_padded2 d
       ++ " " :: month_abbreviation m ++ " " :: zero_padded4 y)%list
    = Some ([("H", zero_padded2 h); ("d", zero_padded2 d);
             ("b", month_abbreviation m); ("Y", zero_padded4 y)], [])).
  { pose proof (year_head _ y EY ltac:(lia)) as M.
    pose proof (match_items_head _ _ _ _ _ _ _
                  (spaces_head (zero_padded4 y) _ _ eq_refl Sy) M) as M7.
    pose proof (match_items_head _ _ _ _ _ _ _ Hb M7) as M6.
    pose proof (match_items_head _ _ _ _ _ _ _
                  (spaces_head (month_abbreviation m ++ " " :: zero_padded4 y)
                     c (text ++ " " :: zero_padded4 y)
                     ltac:(rewrite Ec; reflexivity) Sc) M6) as M5.
    pose proof (match_items_head _ _ _ _ _ _ _
                  (day_head _ d _ Ed ltac:(lia)) M5) as M4.
    pose proof (match_items_head _ _ _ _ _ _ _
                  (spaces_head (zero_padded2 d ++ _) _ _ eq_refl Sd) M4) as M3.
    assert (MZ : forall rest, hd_error (match_item (Lit "Z") ("Z" :: rest))
                              = Some ([], rest)) by reflexivity.
    pose proof (match_items_head _ _ _ _ _ _ _ (MZ _) M3) as M2.
    pose proof (match_items_head _ _ _ _ _ _ _
                  (hour_head _ h _ EH ltac:(lia)) M2) as M1.
    exact M1. }
  rewrite Hmatch.
  cbn [fold_left convert initial_fields f_year f_month f_day f_hour f_minute].
  rewrite Vh, Vd, Vm, Vy.
  unfold datetime_new. rewrite Hv. reflexivity.
Qed.

Local Open Scope string_scope.
Local Open Scope Z_scope.

(** What the three branches of [suggest_closest_obs_time] have in
    common. *)
Lemma suggest_closest_obs_time_facts img obs lbl :
  valid_datetime img = true ->
  suggest_closest_obs_time img = Some (obs, lbl) ->
  valid_datetime obs = true
  /\ minute obs = 0 /\ second obs = 0 /\ microsecond obs = 0
  /\ ((hour obs = 0 /\ lbl = "00Z") \/ (hour obs = 12 /\ lbl = "12Z"))
  /\ year img <= year obs
  /\ Z.abs (datetime_sub obs img) <= timedelta_hours 6.
Proof.
  intros Hv. pose proof Hv as Hv'. apply valid_datetime_spec in Hv'.
  destruct Hv' as (Hd & Hh & Hm & Hs & Hu).
  unfold suggest_closest_obs_time; cbv zeta.
  destruct (hour img <? 6) eqn:E1.
  - apply Z.ltb_lt in E1. intros H; injection H as <- <-.
    repeat split; simpl; auto; try lia.
    + apply valid_datetime_spec; simpl. repeat split; try lia. exact Hd.
    + unfold datetime_sub, timedelta_hours.
      pose proof (to_microseconds_same_day img 0). lia.
  - apply Z.ltb_ge in E1. destruct (hour img <? 18) eqn:E2.
    + apply Z.ltb_lt in E2. intros H; injection H as <- <-.
      repeat split; simpl; auto; try lia.
      * apply valid_datetime_spec; simpl. repeat split; try lia. exact Hd.
      * unfold datetime_sub, timedelta_hours.
        pose proof (to_microseconds_same_day img 12). lia.
    + apply Z.ltb_ge in E2.
      destruct (date_add_one_day (date_of img)) as [nd | ] eqn:E;
        [ | discriminate ].
      destruct (date_add_one_day_ordinal _ _ Hd E) as (Ho & Hnd).
      intros H; injection H as <- <-.
      assert (Hyear : year img <= d_year nd).
      { unfold date_add_one_day in E.
        destruct (_ <? _) in E; [ injection E as <-; simpl; lia | ].
        destruct (_ <? _) in E; [ injection E as <-; simpl; lia | ].
        destruct (_ <? _) in E; [ injection E as <-; simpl; lia | discriminate ]. }
      repeat split; simpl; auto; try lia.
      * apply valid_datetime_spec; simpl. repeat split; try lia.
        destruct nd; exact Hnd.
      * unfold datetime_sub, timedelta_hours, to_microseconds.
        cbn [year month day hour minute second microsecond].
        unfold date_of at 1.
        cbn [year month day hour minute second microsecond].
        replace (mk_date (d_year nd) (d_month nd) (d_day nd)) with nd
          by (destruct nd; reflexivity).
        rewrite Ho. lia.
Qed.

(** X4: the suggested time is a closest synoptic time: no time at 00:00
    or 12:00 of any day is nearer to the image time. *)
Theorem suggest_closest_obs_time_nearest img obs lbl cand :
  valid_datetime img = true ->
  suggest_closest_obs_time img = Some (obs, lbl) ->
  (hour cand = 0 \/ hour cand = 12) ->
  minute cand = 0 -> second cand = 0 -> microsecond cand = 0 ->
  Z.abs (datetime_sub obs img) <= Z.abs (datetime_sub cand img).
Proof.
  intros Hv Hs Hh Hm Hsec Hu.
  destruct (suggest_closest_obs_time_facts img obs lbl Hv Hs)
    as (_ & Om & Os & Ou & Oh & _ & Hclose).
  unfold datetime_sub, timedelta_hours, to_microseconds in *.
  rewrite Hm, Hsec, Hu, Om, Os, Ou in *.
  generalize dependent (toordinal (date_of obs)).
  generalize (toordinal (date_of cand)).
  generalize (toordinal (date_of img)).
  intros a b c Hclose.
  destruct Hh as [ E | E ]; rewrite E;
    destruct Oh as [ (E' & _) | (E' & _) ]; rewrite E' in *; lia.
Qed.

Lemma suggest_closest_obs_time_nearest_witness :
  let img := mk_datetime 2025 4 12 7 30 0 0 in
  let obs := mk_datetime 2025 4 12 12 0 0 0 in
  let cand := mk_datetime 2025 4 12 0 0 0 0 in
  suggest_closest_obs_time img = Some (obs, "12Z")
  /\ Z.abs (datetime_sub obs img) <= Z.abs (datetime_sub cand img).
Proof.
  cbv zeta. split; [ reflexivity | ].
  apply (suggest_closest_obs_time_nearest
           (mk_datetime 2025 4 12 7 30 0 0) _ "12Z");
    try reflexivity.
  left; reflexivity.
Defined.

(** X5: the suggested time is a valid datetime at 00:00 or 12:00 sharp,
    its label is "00Z" or "12Z" accordingly, and the label is what the
    formatted suggestion starts with. *)
Theorem suggest_closest_obs_time_label img obs lbl :
  valid_datetime img = true ->
  suggest_closest_obs_time img = Some (obs, lbl) ->
  valid_datetime obs = true
  /\ minute obs = 0 /\ second obs = 0 /\ microsecond obs = 0
  /\ ((hour obs = 0 /\ lbl = "00Z") \/ (hour obs = 12 /\ lbl = "12Z"))
  /\ substring 0 3 (strftime obs format_a) = lbl.
Proof.
  intros Hv Hs.
  destruct (suggest_closest_obs_time_facts img obs lbl Hv Hs)
    as (Ov & Om & Os & Ou & Oh & _ & _).
  repeat split; auto.
  destruct obs as [y m d h mi s u]; simpl in Oh.
  destruct Oh as [ (-> & ->) | (-> & ->) ]; reflexivity.
Qed.

Lemma suggest_closest_obs_time_label_witness :
  let img := mk_datetime 2024 2 28 19 0 0 0 in
  let obs := mk_datetime 2024 2 29 0 0 0 0 in
  suggest_closest_obs_time img = Some (obs, "00Z")
  /\ valid_datetime obs = true
  /\ substring 0 3 (strftime obs format_a) = "00Z".
Proof.
  cbv zeta. split; [ reflexivity | ].
  destruct (suggest_closest_obs_time_label
              (mk_datetime 2024 2 28 19 0 0 0)
              (mk_datetime 2024 2 29 0 0 0 0) "00Z" eq_refl eq_refl)
    as (Hv & _ & _ & _ & _ & Hl).
  split; [ exact Hv | exact Hl ].
Defined.

(** X2: a valid datetime on the hour, from year 1000 on, written with
    [strftime] in the format of line 85 is read back by [strptime] with
    format (a) as the same datetime, and [parse_time_input] accepts the
    text as an image time. *)
Theorem strftime_strptime_round_trip dt :
  valid_datetime dt = true ->
  minute dt = 0 -> second dt = 0 -> microsecond dt = 0 ->
  1000 <= year dt ->
  strptime (strftime dt format_a) format_a = Some dt
  /\ parse_time_input (strftime dt format_a) true None
     = ((Some dt, strftime dt format_a), []).
Proof.
  intros Hv Hm Hs Hu Hy.
  pose proof (strptime_strftime_format_a dt Hv Hm Hs Hu Hy) as H.
  split; [ exact H | ].
  unfold parse_time_input, parse_formats. rewrite H. reflexivity.
Qed.

Lemma strftime_strptime_round_trip_witness :
  let dt := mk_datetime 2024 2 29 23 0 0 0 in
  strftime dt format_a = "23Z 29 Feb 2024"
  /\ strptime (strftime dt format_a) format_a = Some dt.
Proof.
  cbv zeta. split; [ reflexivity | ].
  apply (strftime_strptime_round_trip (mk_datetime 2024 2 29 23 0 0 0));
    try reflexivity.
  simpl; lia.
Defined.

(** X3: for an image time from year 1000 on, the suggestion shown in the
    observation prompt, typed back as it is shown, is accepted as the
    observation time, parses to the suggested datetime, and draws no
    proximity warning. *)
Theorem suggested_text_is_accepted img obs lbl :
  valid_datetime img = true -> 1000 <= year img ->
  suggest_closest_obs_time img = Some (obs, lbl) ->
  let text := strftime obs format_a in
  parse_time_input text false (Some text) = ((Some obs, text), [])
  /\ check_time_proximity obs img text = (true, "").
Proof.
  intros Hv Hy Hs text.
  destruct (suggest_closest_obs_time_facts img obs lbl Hv Hs)
    as (Ov & Om & Os & Ou & Oh & Oy & Hclose).
  assert (Hp : strptime text format_a = Some obs)
    by (apply strptime_strftime_format_a; auto; lia).
  split.
  - unfold parse_time_input, parse_formats, check_synoptic_hour.
    rewrite Hp.
    assert (Hsyn : synoptic obs = true).
    { apply synoptic_spec. destruct Oh as [ (-> & _) | (-> & _) ]; lia. }
    rewrite Hsyn. reflexivity.
  - apply check_time_proximity_close. exact Hclose.
Qed.

Lemma suggested_text_is_accepted_witness :
  let img := mk_datetime 2025 4 12 18 45 0 0 in
  let obs := mk_datetime 2025 4 13 0 0 0 0 in
  suggest_closest_obs_time img = Some (obs, "00Z")
  /\ parse_time_input "00Z 13 Apr 2025" false (Some "00Z 13 Apr 2025")
     = ((Some obs, "00Z 13 Apr 2025"), []).
Proof.
  cbv zeta. split; [ reflexivity | ].
  apply (suggested_text_is_accepted (mk_datetime 2025 4 12 18 45 0 0)
           (mk_datetime 2025 4 13 0 0 0 0) "00Z");
    try reflexivity.
  simpl; lia.
Defined.
End StrftimeFacts.

(* ================================================================== *)
(** * Properties of the verdict *)
(* ================================================================== *)

Section VerdictFacts.
Local Open Scope R_scope.

Lemma calculate_rhi_ge_100 T_c Td_c :
  100 <= calculate_rhi T_c Td_c
  <-> saturation_vapor_pressure_ice T_c <= saturation_vapor_pressure_water Td_c.
Proof.
  pose proof (saturation_vapor_pressure_ice_pos T_c) as Hi.
  unfold calculate_rhi; cbv zeta.
  set (e := saturation_vapor_pressure_water Td_c) in *.
  set (e_si := saturation_vapor_pressure_ice T_c) in *.
  split; intros H.
  - assert (H1 : 1 <= e / e_si) by lra.
    apply (Rmult_le_compat_r e_si) in H1; [ | lra ].
    unfold Rdiv in H1. rewrite Rmult_assoc, Rinv_l in H1; lra.
  - assert (H1 : 1 <= e / e_si).
    { apply (Rmult_le_reg_r e_si); [ exact Hi | ].
      unfold Rdiv. rewrite Rmult_assoc, Rinv_l; lra. }
    lra.
Qed.

Lemma calculate_rhi_gt_100 T_c Td_c :
  100 < calculate_rhi T_c Td_c
  <-> saturation_vapor_pressure_ice T_c < saturation_vapor_pressure_water Td_c.
Proof.
  pose proof (saturation_vapor_pressure_ice_pos T_c) as Hi.
  unfold calculate_rhi; cbv zeta.
  set (e := saturation_vapor_pressure_water Td_c) in *.
  set (e_si := saturation_vapor_pressure_ice T_c) in *.
  split; intros H.
  - assert (H1 : 1 < e / e_si) by lra.
    apply (Rmult_lt_compat_r e_si) in H1; [ | lra ].
    unfold Rdiv in H1. rewrite Rmult_assoc, Rinv_l in H1; lra.
  - assert (H1 : 1 < e / e_si).
    { apply (Rmult_lt_reg_r e_si); [ exact Hi | ].
      unfold Rdiv. rewrite Rmult_assoc, Rinv_l; lra. }
    lra.
Qed.

Lemma contrail_persistence_possible rhi :
  contrail_persistence rhi = "Persistent contrails possible"%string
  <-> 100 <= rhi.
Proof.
  unfold contrail_persistence. rewrite <- Rleb_true_iff.
  destruct (Rleb 100 rhi); split; auto; discriminate.
Qed.


(** The two exponents at the same temperature: their difference has the
    sign of [T * (-4.79 T - 651.8146)]. *)
Lemma exponents_at_same_temperature T_c :
  0 < T_c + 243.5 ->
  (22.46 * T_c / (T_c + 272.62) < 17.67 * T_c / (T_c + 243.5)
   <-> -651.8146 < 4.79 * T_c /\ T_c < 0).
Proof.
  intros Hd.
  assert (Hd' : 0 < T_c + 272.62) by lra.
  assert (Hprod : 0 < (T_c + 272.62) * (T_c + 243.5))
    by (apply Rmult_lt_0_compat; assumption).
  assert (E1 : 22.46 * T_c / (T_c + 272.62) * ((T_c + 272.62) * (T_c + 243.5))
               = 22.46 * T_c * (T_c + 243.5)) by (field; lra).
  assert (E2 : 17.67 * T_c / (T_c + 243.5) * ((T_c + 272.62) * (T_c + 243.5))
               = 17.67 * T_c * (T_c + 272.62)) by (field; lra).
  split.
  - intros H.
    apply (Rmult_lt_compat_r _ _ _ Hprod) in H. rewrite E1, E2 in H.
    assert (Hs : 0 < T_c * (-4.79 * T_c - 651.8146)) by lra.
    destruct (Rlt_le_dec T_c 0) as [ Hneg | Hpos ].
    + split; [ | exact Hneg ]. nra.
    + exfalso. nra.
  - intros (H1 & H2).
    apply (Rmult_lt_reg_r _ _ _ Hprod). rewrite E1, E2.
    assert (Hs : 0 < (- T_c) * (4.79 * T_c + 651.8146))
      by (apply Rmult_lt_0_compat; lra).
    lra.
Qed.

Lemma calculate_rhi_at_zero : calculate_rhi 0 0 = 100.
Proof.
  unfold calculate_rhi, saturation_vapor_pressure_ice,
    saturation_vapor_pressure_water; cbv zeta.
  replace (17.67 * 0 / (0 + 243.5)) with 0 by (field; lra).
  replace (22.46 * 0 / (0 + 272.62)) with 0 by (field; lra).
  rewrite exp_0. field; lra.
Qed.

(** X7: with the dewpoint equal to the temperature (above -243.5), RHi
    exceeds 100 exactly for temperatures below 0 and above
    -651.8146/4.79 (about -136.08); at 0 it is exactly 100. *)
Theorem saturated_air_is_supersaturated_below_freezing T_c :
  0 < T_c + 243.5 ->
  (100 < calculate_rhi T_c T_c <-> -651.8146 < 4.79 * T_c /\ T_c < 0)
  /\ calculate_rhi 0 0 = 100.
Proof.
  intros Hd. split.
  - rewrite calculate_rhi_gt_100.
    rewrite <- (exponents_at_same_temperature T_c Hd).
    unfold saturation_vapor_pressure_ice, saturation_vapor_pressure_water.
    split; intros H.
    + apply Rmult_lt_reg_l in H; [ | lra ].
      apply exp_lt_inv. exact H.
    + apply Rmult_lt_compat_l; [ lra | ]. apply exp_increasing. exact H.
  - exact calculate_rhi_at_zero.
Qed.

Lemma saturated_air_is_supersaturated_below_freezing_witness :
  100 < calculate_rhi (-40) (-40).
Proof.
  apply (saturated_air_is_supersaturated_below_freezing (-40)); lra.
Defined.

(** X8: where both denominators are positive, a "possible" verdict is
    kept when the temperature falls or stays and the dewpoint rises or
    stays. *)
Theorem contrail_persistence_monotone T1 T2 Td1 Td2 :
  0 < T1 + 272.62 -> 0 < Td1 + 243.5 -> T1 <= T2 -> Td1 <= Td2 ->
  contrail_persistence (calculate_rhi T2 Td1)
  = "Persistent contrails possible"%string ->
  contrail_persistence (calculate_rhi T1 Td2)
  = "Persistent contrails possible"%string.
Proof.
  intros HT HTd HT12 HTd12.
  rewrite !contrail_persistence_possible, !calculate_rhi_ge_100.
  intros H.
  assert (Hi : saturation_vapor_pressure_ice T1
               <= saturation_vapor_pressure_ice T2).
  { destruct HT12 as [ Hlt | -> ]; [ | lra ].
    left. apply saturation_vapor_pressure_ice_increasing; assumption. }
  assert (Hw : saturation_vapor_pressure_water Td1
               <= saturation_vapor_pressure_water Td2).
  { destruct HTd12 as [ Hlt | -> ]; [ | lra ].
    left. apply saturation_vapor_pressure_water_increasing; assumption. }
  lra.
Qed.

Lemma contrail_persistence_monotone_witness :
  contrail_persistence (calculate_rhi 0 0)
  = "Persistent contrails possible"%string
  /\ contrail_persistence (calculate_rhi (-10) 0)
     = "Persistent contrails possible"%string.
Proof.
  assert (H : contrail_persistence (calculate_rhi 0 0)
              = "Persistent contrails possible"%string).
  { apply contrail_persistence_possible. rewrite calculate_rhi_at_zero. lra. }
  split; [ exact H | ].
  apply (contrail_persistence_monotone (-10) 0 0 0); try lra. exact H.
Defined.
End VerdictFacts.

(* ================================================================== *)
(** * Properties of the analysis of a table *)
(* ================================================================== *)

Section TableFacts.
Local Open Scope string_scope.
Local Open Scope R_scope.

Lemma between_false lo hi x : between lo hi x = false <-> ~ (lo <= x <= hi).
Proof.
  rewrite <- between_spec. destruct (between lo hi x); split; auto;
    try discriminate. intros H; contradiction H; reflexivity.
Qed.

Lemma positions_in col cols : forall i j,
  In j (positions col cols i) -> existsb (String.eqb col) cols = true.
Proof.
  induction cols as [ | c cols IH ]; intros i j H; simpl in *; [ destruct H | ].
  destruct (String.eqb c col) eqn:E.
  - apply String.eqb_eq in E. subst c. rewrite String.eqb_refl. reflexivity.
  - apply IH in H. rewrite H. apply orb_true_r.
Qed.

Lemma series_has_column df col v :
  series df col = Some v ->
  has_column df col = true /\ List.length v = List.length (values df).
Proof.
  unfold series, has_column.
  destruct (positions col (columns df) 0) as [ | i [ | ] ] eqn:E;
    try discriminate.
  intros H; injection H as <-. split.
  - apply (positions_in col (columns df) 0%nat i). rewrite E. left; reflexivity.
  - apply length_map.
Qed.

Lemma levels_from_rows p : forall i t td,
  List.length t = List.length p -> List.length td = List.length p ->
  map P (levels_from i p t td) = p.
Proof.
  induction p as [ | a p IH ]; intros i t td Ht Htd; simpl; [ reflexivity | ].
  destruct t as [ | b t ]; [ discriminate | ].
  destruct td as [ | c td ]; [ discriminate | ].
  simpl. f_equal. apply IH; simpl in *; lia.
Qed.

Lemma levels_from_RHi p : forall i t td r,
  In r (levels_from i p t td) -> RHi r = calculate_rhi (T r) (Td r).
Proof.
  induction p as [ | a p IH ]; intros i t td r H; simpl in H; [ destruct H | ].
  destruct t as [ | b t ]; [ destruct H | ].
  destruct td as [ | c td ]; [ destruct H | ].
  destruct H as [ <- | H ]; [ reflexivity | ]. apply (IH _ _ _ _ H).
Qed.

Lemma max_rhi_row_in flight r :
  NoDup (map label flight) -> max_rhi_row flight = Some r -> In r flight.
Proof.
  intros Hnd H. pose proof (max_rhi_row_spec flight Hnd) as S.
  rewrite H in S. destruct S as (before & after & -> & _).
  apply in_or_app. right. left. reflexivity.
Qed.

Lemma df_flight_NoDup p t td :
  NoDup (map label (df_flight (levels_from 0 p t td))).
Proof. unfold df_flight. apply NoDup_map_filter. apply levels_from_NoDup. Qed.

(** X11: for a table column of pressures with as many temperatures and
    dewpoints, a level in [200, 300] first met in row [i] is reported
    with the RHi computed from the temperature and dewpoint of row [i]. *)
Theorem rhi_at_first_row p : forall t td level i,
  List.length t = List.length p -> List.length td = List.length p ->
  nth_error p i = Some level ->
  (forall j, (j < i)%nat -> nth_error p j <> Some level) ->
  200 <= level <= 300 ->
  rhi_at (df_flight (levels_from 0 p t td)) level
  = Some (calculate_rhi (nth i t 0) (nth i td 0)).
Proof.
  generalize 0%nat as k.
  induction p as [ | a p IH ]; intros k t td level i Ht Htd Hi Hfirst Hband.
  - destruct i; discriminate.
  - destruct t as [ | b t ]; [ discriminate | ].
    destruct td as [ | c td ]; [ discriminate | ].
    simpl levels_from. unfold df_flight. simpl filter.
    destruct i as [ | i ].
    + simpl in Hi. injection Hi as ->.
      replace (between 200 300 level) with true
        by (symmetry; apply between_spec; exact Hband).
      unfold rhi_at. simpl.
      replace (Reqb level level) with true
        by (symmetry; apply Reqb_true_iff; reflexivity).
      reflexivity.
    + simpl in Hi.
      assert (Ha : a <> level).
      { intros ->. apply (Hfirst 0%nat); [ lia | reflexivity ]. }
      assert (IH' : rhi_at (df_flight (levels_from (S k) p t td)) level
                    = Some (calculate_rhi (nth i t 0) (nth i td 0))).
      { apply IH; simpl in *; try lia; auto.
        intros j Hj. apply (Hfirst (S j)). lia. }
      destruct (between 200 300 a); [ | exact IH' ].
      unfold rhi_at in *. simpl.
      replace (Reqb a level) with false
        by (symmetry; apply Reqb_false_iff; exact Ha).
      simpl. exact IH'.
Qed.

(** X12: the row of maximum RHi is a row of the table inside the band,
    with the RHi of its own temperature and dewpoint, and no level found
    by [rhi_at] has a greater RHi; when there is no such row, no level
    is found. *)
Theorem max_rhi_row_dominates_levels p t td :
  let flight := df_flight (levels_from 0 p t td) in
  match max_rhi_row flight with
  | Some r =>
      In r (levels_from 0 p t td) /\ 200 <= P r <= 300
      /\ RHi r = calculate_rhi (T r) (Td r)
      /\ forall level v, rhi_at flight level = Some v -> v <= RHi r
  | None => forall level, rhi_at flight level = None
  end.
Proof.
  cbv zeta.
  pose proof (max_rhi_row_spec _ (df_flight_NoDup p t td)) as S.
  destruct (max_rhi_row (df_flight (levels_from 0 p t td))) as [ r | ] eqn:E.
  - destruct S as (before & after & Heq & Hb & Ha).
    assert (Hin : In r (df_flight (levels_from 0 p t td))).
    { rewrite Heq. apply in_or_app. right. left. reflexivity. }
    unfold df_flight in Hin. apply filter_In in Hin.
    destruct Hin as (Hin & Hband). apply between_spec in Hband.
    repeat split; try tauto.
    + apply (levels_from_RHi _ _ _ _ _ Hin).
    + intros level v Hv.
      pose proof (rhi_at_spec (df_flight (levels_from 0 p t td)) level) as R.
      rewrite Hv in R. destruct R as (b' & x & a' & Hx & _ & <- & _).
      assert (Hxin : In x (before ++ r :: after)).
      { rewrite <- Heq, Hx. apply in_or_app. right. left. reflexivity. }
      apply in_app_or in Hxin. destruct Hxin as [ H | [ <- | H ] ].
      * left. apply Hb. exact H.
      * right. reflexivity.
      * apply Ha. exact H.
  - intros level. rewrite S. reflexivity.
Qed.

Lemma rhi_at_first_row_witness :
  rhi_at (df_flight (levels_from 0 [300; 250; 200] [-40; -50; -55]
                                   [-45; -52; -58])) 250
  = Some (calculate_rhi (-50) (-52)).
Proof.
  apply (rhi_at_first_row [300; 250; 200] [-40; -50; -55] [-45; -52; -58]
           250 1%nat); try reflexivity; try lra.
  intros j Hj. assert (j = 0%nat) by lia. subst j. simpl.
  intros H. injection H as H. lra.
Defined.

Lemma existsb_between p :
  existsb (between 200 300) p = true <-> exists x, In x p /\ 200 <= x <= 300.
Proof.
  rewrite existsb_exists. split; intros (x & Hx & Hb); exists x;
    (split; [ exact Hx | ]); apply between_spec; exact Hb.
Qed.

(** X9: for a table in which P, T and Td each label exactly one column
    after the renaming, the analysis prints the report and completes when
    some pressure lies in [200, 300], and otherwise prints only the
    out-of-band error and exits. *)
Theorem analysis_band_check s df p t td :
  read_csv_result s = inr df ->
  series (rename df) "P" = Some p ->
  series (rename df) "T" = Some t ->
  series (rename df) "Td" = Some td ->
  ((exists x, In x p /\ 200 <= x <= 300) ->
   analysis s = (report s (df_flight (levels_from 0 p t td)), Completed))
  /\ ((forall x, In x p -> ~ (200 <= x <= 300)) ->
      analysis s
      = ([Text "Error: Data must include at least one level between 200 and 300 hPa.. Please check your input format."],
         Exited)).
Proof.
  intros Hread HP HT HTd.
  destruct (series_has_column _ _ _ HP) as (CP & _).
  destruct (series_has_column _ _ _ HT) as (CT & _).
  destruct (series_has_column _ _ _ HTd) as (CTd & _).
  assert (Hreq : has_required_columns (rename df) = true).
  { unfold has_required_columns. simpl. rewrite CP, CT, CTd. reflexivity. }
  unfold analysis, load_profile. rewrite Hread, Hreq, HP. simpl negb.
  split.
  - intros Hex. apply existsb_between in Hex. rewrite Hex. simpl negb.
    cbv iota. unfold with_rhi. rewrite HP, HT, HTd. reflexivity.
  - intros Hout.
    assert (E : existsb (between 200 300) p = false).
    { destruct (existsb (between 200 300) p) eqn:E; [ | reflexivity ].
      apply existsb_between in E. destruct E as (x & Hx & Hb).
      contradiction (Hout x Hx). }
    rewrite E. reflexivity.
Qed.

Lemma analysis_band_check_witness :
  let t := mk_datetime 2025 4 12 12 0 0 0 in
  let df := mk_df ["PRES"; "HGHT"; "TEMP"; "DWPT"] [[500; 5600; -20; -30]] in
  let s := mk_session "72365 - ABQ" "12Z 12 Apr 2025" t "12Z 12 Apr 2025"
                      "12Z 12 Apr 2025" t "Albuquerque, NM" (inr df) in
  analysis s
  = ([Text "Error: Data must include at least one level between 200 and 300 hPa.. Please check your input format."],
     Exited).
Proof.
  cbv zeta.
  refine (proj2 (analysis_band_check
                   (mk_session "72365 - ABQ" "12Z 12 Apr 2025"
                      (mk_datetime 2025 4 12 12 0 0 0) "12Z 12 Apr 2025"
                      "12Z 12 Apr 2025" (mk_datetime 2025 4 12 12 0 0 0)
                      "Albuquerque, NM"
                      (inr (mk_df ["PRES"; "HGHT"; "TEMP"; "DWPT"]
                                  [[500; 5600; -20; -30]])))
                   (mk_df ["PRES"; "HGHT"; "TEMP"; "DWPT"]
                          [[500; 5600; -20; -30]])
                   [500] [-20] [-30]
                   eq_refl eq_refl eq_refl eq_refl) _).
  intros x [ <- | [] ]. lra.
Defined.

(** X10: an analysis that completes has printed the report of a flight
    band in which [max_rhi_row] found a row: a row of the table with
    pressure in [200, 300] whose RHi is computed from its own temperature
    and dewpoint.  The branch for an empty band (lines 142-144 and
    166-167) is never taken. *)
Theorem completed_analysis_has_maximum s :
  snd (analysis s) = Completed ->
  exists df rows r,
    load_profile (read_csv_result s) = inr df
    /\ with_rhi df = Some rows
    /\ fst (analysis s) = report s (df_flight rows)
    /\ max_rhi_row (df_flight rows) = Some r
    /\ In r rows /\ 200 <= P r <= 300
    /\ RHi r = calculate_rhi (T r) (Td r).
Proof.
  unfold analysis.
  destruct (load_profile (read_csv_result s)) as [ e | df ] eqn:El;
    [ discriminate | ].
  destruct (with_rhi df) as [ rows | ] eqn:Ew; [ | discriminate ].
  intros _. simpl.
  pose proof El as El0. pose proof Ew as Ew0.
  unfold load_profile in El.
  destruct (read_csv_result s) as [ e | df0 ]; [ discriminate | ].
  destruct (negb (has_required_columns (rename df0))); [ discriminate | ].
  destruct (series (rename df0) "P") as [ p | ] eqn:HP; [ | discriminate ].
  destruct (negb (existsb (between 200 300) p)) eqn:Eb; [ discriminate | ].
  injection El as <-.
  apply negb_false_iff in Eb. apply existsb_between in Eb.
  destruct Eb as (x & Hx & Hband).
  unfold with_rhi in Ew. rewrite HP in Ew.
  destruct (series (rename df0) "T") as [ t | ] eqn:HT; [ | discriminate ].
  destruct (series (rename df0) "Td") as [ td | ] eqn:HTd; [ | discriminate ].
  injection Ew as <-.
  destruct (series_has_column _ _ _ HP) as (_ & LP).
  destruct (series_has_column _ _ _ HT) as (_ & LT).
  destruct (series_has_column _ _ _ HTd) as (_ & LTd).
  assert (Hrow : exists r0, In r0 (levels_from 0 p t td) /\ P r0 = x).
  { rewrite <- (levels_from_rows p 0 t td) in Hx by congruence.
    apply in_map_iff in Hx. destruct Hx as (r0 & E & Hin).
    exists r0. auto. }
  destruct Hrow as (r0 & Hr0 & Px).
  assert (Hfl : In r0 (df_flight (levels_from 0 p t td))).
  { unfold df_flight. apply filter_In. split; [ exact Hr0 | ].
    apply between_spec. rewrite Px. exact Hband. }
  pose proof (max_rhi_row_spec _ (df_flight_NoDup p t td)) as S.
  destruct (max_rhi_row (df_flight (levels_from 0 p t td))) as [ r | ] eqn:Em.
  - exists (rename df0), (levels_from 0 p t td), r.
    assert (Hin : In r (df_flight (levels_from 0 p t td)))
      by (apply max_rhi_row_in; [ apply df_flight_NoDup | exact Em ]).
    unfold df_flight in Hin. apply filter_In in Hin.
    destruct Hin as (Hin & Hb). apply between_spec in Hb.
    split; [ reflexivity | ]. split; [ exact Ew0 | ].
    split; [ reflexivity | ]. split; [ exact Em | ].
    split; [ exact Hin | ]. split; [ exact Hb | ].
    apply (levels_from_RHi _ _ _ _ _ Hin).
  - rewrite S in Hfl. destruct Hfl.
Qed.

Lemma completed_analysis_has_maximum_witness :
  let t := mk_datetime 2025 4 12 12 0 0 0 in
  let df := mk_df ["PRES"; "TEMP"; "DWPT"] [[250; -50; -52]] in
  let s := mk_session "72365 - ABQ" "12Z 12 Apr 2025" t "12Z 12 Apr 2025"
                      "12Z 12 Apr 2025" t "Albuquerque, NM" (inr df) in
  snd (analysis s) = Completed
  /\ exists df' rows r,
       load_profile (read_csv_result s) = inr df'
       /\ with_rhi df' = Some rows
       /\ fst (analysis s) = report s (df_flight rows)
       /\ max_rhi_row (df_flight rows) = Some r
       /\ In r rows /\ 200 <= P r <= 300
       /\ RHi r = calculate_rhi (T r) (Td r).
Proof.
  cbv zeta.
  assert (Hc : snd (analysis
                      (mk_session "72365 - ABQ" "12Z 12 Apr 2025"
                         (mk_datetime 2025 4 12 12 0 0 0) "12Z 12 Apr 2025"
                         "12Z 12 Apr 2025" (mk_datetime 2025 4 12 12 0 0 0)
                         "Albuquerque, NM"
                         (inr (mk_df ["PRES"; "TEMP"; "DWPT"]
                                     [[250; -50; -52]]))))
               = Completed).
  { assert (Hb : between 200 300 250 = true) by (apply between_spec; lra).
    unfold analysis. simpl read_csv_result.
    unfold load_profile, series. simpl. rewrite Hb. reflexivity. }
  split; [ exact Hc | ].
  apply completed_analysis_has_maximum. exact Hc.
Defined.
End TableFacts.

(* ================================================================== *)
(** * Properties of the prompts *)
(* ================================================================== *)

Section PromptFacts.
Local Open Scope string_scope.

(** X13: the station and location prompts keep the first answer that
    has a character other than whitespace: each blank answer before it
    costs one error line and a new prompt, and the inputs after it are
    left for the next prompt. *)
Theorem ask_nonblank_first_answer prompt error blanks answer rest :
  forallb blank blanks = true -> blank answer = false ->
  ask_nonblank prompt error (blanks ++ answer :: rest)
  = ((flat_map (fun _ => [Prompted prompt; Printed (Text error)]) blanks
      ++ [Prompted prompt])%list,
     Some (answer, rest)).
Proof.
  intros Hb Ha. induction blanks as [ | b blanks IH ]; simpl.
  - rewrite Ha. reflexivity.
  - simpl in Hb. apply andb_true_iff in Hb. destruct Hb as (Hb1 & Hb2).
    rewrite Hb1, (IH Hb2). reflexivity.
Qed.

Lemma ask_nonblank_first_answer_witness :
  ask_nonblank station_prompt station_error
    [""; "   "; "72365 - ABQ Albuquerque"; "01Z 12 Apr 2025"]
  = ([Prompted station_prompt; Printed (Text station_error);
      Prompted station_prompt; Printed (Text station_error);
      Prompted station_prompt],
     Some ("72365 - ABQ Albuquerque", ["01Z 12 Apr 2025"])).
Proof.
  apply (ask_nonblank_first_answer station_prompt station_error
           [""; "   "] "72365 - ABQ Albuquerque" ["01Z 12 Apr 2025"]);
    reflexivity.
Defined.

Lemma ask_nonblank_some prompt error inputs : forall ev answer rest,
  ask_nonblank prompt error inputs = (ev, Some (answer, rest)) ->
  blank answer = false.
Proof.
  induction inputs as [ | a inputs IH ]; intros ev answer rest H; simpl in H.
  - discriminate.
  - destruct (blank a) eqn:E.
    + destruct (ask_nonblank prompt error inputs) as [ev' r] eqn:E'.
      injection H as _ ->. apply (IH _ _ _ eq_refl).
    + injection H as _ <- _. exact E.
Qed.

Lemma read_paste_after lines : forall acc rest,
  Forall (fun l => l <> "") lines -> (acc ++ lines)%list <> [] ->
  read_paste acc (lines ++ "" :: rest) = ([], Some ((acc ++ lines)%list, rest)).
Proof.
  induction lines as [ | l lines IH ]; intros acc rest Hl Hne; simpl.
  - rewrite app_nil_r in *. destruct acc; [ contradiction Hne; reflexivity | ].
    reflexivity.
  - apply Forall_cons_iff in Hl. destruct Hl as (Hl1 & Hl2).
    apply String.eqb_neq in Hl1. rewrite Hl1.
    rewrite (IH (acc ++ [l])%list rest Hl2).
    + rewrite <- app_assoc. reflexivity.
    + rewrite <- app_assoc. exact Hne.
Qed.

(** X14: the paste loop answers each empty line that comes before any
    data with the error, then returns the non-empty lines up to the next
    empty line, in their order; the result is never empty. *)
Theorem read_paste_lines empties lines rest :
  Forall (fun l => l = "") empties ->
  lines <> [] -> Forall (fun l => l <> "") lines ->
  read_paste [] (empties ++ lines ++ "" :: rest)
  = (map (fun _ => Printed (Text empty_paste_error)) empties,
     Some (lines, rest)).
Proof.
  intros He Hne Hl. induction He as [ | e empties -> _ IH ]; simpl.
  - apply (read_paste_after lines [] rest Hl). exact Hne.
  - rewrite IH. reflexivity.
Qed.

Lemma read_paste_lines_witness :
  read_paste [] [""; "PRES TEMP DWPT"; "250 -50 -52"; ""; "ignored"]
  = ([Printed (Text empty_paste_error)],
     Some (["PRES TEMP DWPT"; "250 -50 -52"], ["ignored"])).
Proof.
  apply (read_paste_lines [""] ["PRES TEMP DWPT"; "250 -50 -52"] ["ignored"]).
  - repeat constructor.
  - discriminate.
  - repeat constructor; discriminate.
Defined.

Lemma read_paste_some inputs : forall acc ev lines rest,
  read_paste acc inputs = (ev, Some (lines, rest)) ->
  Forall (fun l => l <> "") acc ->
  lines <> [] /\ Forall (fun l => l <> "") lines.
Proof.
  induction inputs as [ | a inputs IH ]; intros acc ev lines rest H Hacc;
    simpl in H.
  - discriminate.
  - destruct (String.eqb a "") eqn:E.
    + destruct acc as [ | x acc ].
      * destruct (read_paste [] inputs) as [ev' r] eqn:E'.
        injection H as _ ->. apply (IH _ _ _ _ E' Hacc).
      * injection H as _ <- _. split; [ discriminate | exact Hacc ].
    + apply (IH _ _ _ _ H). apply Forall_app. split; [ exact Hacc | ].
      constructor; [ | constructor ]. apply String.eqb_neq. exact E.
Qed.

Lemma ask_time_some prompt allow suggested inputs : forall ev dt text rest,
  ask_time prompt allow suggested inputs = (ev, Some (dt, text, rest)) ->
  strptime text format_a = Some dt
  /\ valid_datetime dt = true
  /\ minute dt = 0%Z /\ second dt = 0%Z /\ microsecond dt = 0%Z
  /\ (allow = false -> hour dt = 0%Z \/ hour dt = 12%Z).
Proof.
  induction inputs as [ | a inputs IH ]; intros ev dt text rest H; simpl in H.
  - discriminate.
  - destruct (parse_time_input a allow suggested) as [[[dt' | ] text'] out] eqn:E.
    + injection H as _ <- <- _.
      unfold parse_time_input in E. rewrite parse_formats_is_format_a in E.
      destruct (strptime a format_a) as [ d | ] eqn:Ep; [ | discriminate ].
      unfold check_synoptic_hour in E.
      destruct (negb allow && negb (synoptic d)) eqn:Ec; [ discriminate | ].
      injection E as <- <- _.
      destruct (strptime_format_a_on_the_hour _ _ Ep) as (Hv & Hm & Hs & Hu).
      repeat split; auto.
      intros ->. simpl in Ec. apply negb_false_iff in Ec.
      apply synoptic_spec in Ec. tauto.
    + destruct (ask_time prompt allow suggested inputs) as [ev' r] eqn:E'.
      injection H as _ ->. apply (IH _ _ _ _ eq_refl).
Qed.

(** X15: when the prompts have collected a session, its station and
    location are not blank, both times are valid datetimes read by format
    (a) from the texts kept, the observation time is at 00:00 or 12:00,
    the suggestion shown is the formatted result of
    [suggest_closest_obs_time] for the image time, and the table was read
    from a non-empty paste without empty lines. *)
Theorem collect_session_invariants read_csv inputs ev s :
  collect read_csv inputs = (ev, Some s) ->
  blank (nws_id_station s) = false
  /\ blank (image_location s) = false
  /\ strptime (image_time_date s) format_a = Some (img_dt s)
  /\ strptime (obs_time_date s) format_a = Some (obs_dt s)
  /\ valid_datetime (img_dt s) = true
  /\ valid_datetime (obs_dt s) = true
  /\ (hour (obs_dt s) = 0%Z \/ hour (obs_dt s) = 12%Z)
  /\ minute (obs_dt s) = 0%Z
  /\ (exists suggested_dt lbl,
         suggest_closest_obs_time (img_dt s) = Some (suggested_dt, lbl)
         /\ suggested_time s = strftime suggested_dt format_a)
  /\ (exists lines,
         lines <> [] /\ Forall (fun l => l <> "") lines
         /\ read_csv_result s = read_csv (join_lines lines)).
Proof.
  unfold collect.
  destruct (ask_nonblank station_prompt station_error inputs)
    as [ev1 [ [nws in1] | ]] eqn:E1; [ | discriminate ].
  destruct (ask_time image_prompt true None in1)
    as [ev2 [ [[img image_text] in2] | ]] eqn:E2; [ | discriminate ].
  destruct (suggest_closest_obs_time img) as [ [sdt sz] | ] eqn:Es;
    [ | discriminate ].
  cbv zeta.
  destruct (ask_time _ false _ in2)
    as [ev3 [ [[obs obs_text] in3] | ]] eqn:E3; [ | discriminate ].
  destruct (ask_nonblank location_prompt location_error in3)
    as [ev5 [ [place in5] | ]] eqn:E5; [ | discriminate ].
  destruct (read_paste [] in5) as [ev7 [ [lines in7] | ]] eqn:E7;
    [ | discriminate ].
  intros H. apply (f_equal snd) in H. cbn [snd] in H. injection H as <-.
  cbn [nws_id_station image_location image_time_date obs_time_date img_dt
         obs_dt suggested_time read_csv_result].
  apply ask_nonblank_some in E1. apply ask_nonblank_some in E5.
  apply ask_time_some in E2. apply ask_time_some in E3.
  apply read_paste_some in E7; [ | constructor ].
  destruct E2 as (P2 & V2 & _).
  destruct E3 as (P3 & V3 & M3 & _ & _ & H3).
  repeat split; auto.
  - exists sdt, sz. split; [ exact Es | reflexivity ].
  - exists lines. destruct E7. repeat split; auto.
Qed.

Lemma collect_session_invariants_witness :
  exists ev s,
    collect (fun _ => inl "no table")
      ["72365 - ABQ Albuquerque"; "01Z 12 Apr 2025"; "03Z 12 Apr 2025";
       "00Z 12 Apr 2025"; "Albuquerque, NM"; "PRES TEMP DWPT"; ""]
    = (ev, Some s)
    /\ blank (nws_id_station s) = false
    /\ strptime (obs_time_date s) format_a = Some (obs_dt s)
    /\ (hour (obs_dt s) = 0%Z \/ hour (obs_dt s) = 12%Z).
Proof.
  eexists. eexists. split; [ reflexivity | ].
  match goal with
  | |- blank (nws_id_station ?s) = false /\ _ =>
      destruct (collect_session_invariants
                  (fun _ => inl "no table")
                  ["72365 - ABQ Albuquerque"; "01Z 12 Apr 2025";
                   "03Z 12 Apr 2025"; "00Z 12 Apr 2025"; "Albuquerque, NM";
                   "PRES TEMP DWPT"; ""] _ s eq_refl)
        as (H1 & _ & _ & H4 & _ & _ & H7 & _)
  end.
  split; [ exact H1 | split; [ exact H4 | exact H7 ] ].
Defined.
End PromptFacts.
